(** * Host-authoritative chess room: clock model, outcome resolver,
      room state machine and game persistence.

    Shallow embedding of
    - [components/FriendRoomScreen.tsx] (room snapshot, [advanceClock],
      [getOutcomeFromChess], [finalizeGame], [hostApplyMove], the host's
      message and UI handlers),
    - [components/GameArena.tsx] (when the draw and resign buttons can
      be pressed),
    - [components/AiGameScreen.tsx] (the local [advanceClock]),
    - [utils/clock.ts] ([sideToLabel], [oppositeSide]),
    - [utils/storage.ts] ([loadGames], [saveGame]).

    Numbers are JavaScript numbers in the source.  Every number that the
    embedded functions touch is a count of milliseconds obtained from
    [Date.now()] or from an integral time control, so they are modelled
    as [Z].  [chess.js] and [JSON] are external; they are interfaces
    here. *)

From stdpp Require Import prelude strings sorting pretty.
From Stdlib Require Import ZArith Lia Ascii.

Local Open Scope Z_scope.

(** ** types/index.ts *)

Inductive Side := W | B.

Inductive WinnerLabel := white | black | draw.

(** [Winner = "white" | "black" | "draw" | null]; [null] is [None]. *)
Definition Winner := option WinnerLabel.

#[global] Instance Side_eq_dec : EqDecision Side.
Proof. solve_decision. Defined.

#[global] Instance WinnerLabel_eq_dec : EqDecision WinnerLabel.
Proof. solve_decision. Defined.

Module MoveRecord.
Record t := mk {
  ply : Z;
  side : Side;
  san : string;
  uci : string;
  fenAfter : string;
}.
End MoveRecord.

Module ChatMessage.
Record t := mk {
  id : string;
  sender : string;
  text : string;
  timestamp : Z;
  system : option bool;
  side : option Side;
}.
End ChatMessage.

Module TimeControl.
Record t := mk {
  initialMinutes : Z;
  incrementSeconds : Z;
}.
End TimeControl.

Inductive GameMode := ai | friend.

Module SavedGame.
Record t := mk {
  id : string;
  mode : GameMode;
  createdAt : Z;
  whiteName : string;
  blackName : string;
  resultWinner : Winner;
  resultReason : string;
  timeControl : option TimeControl.t;
  startFen : string;
  finalFen : string;
  pgn : string;
  moves : list MoveRecord.t;
  chats : list ChatMessage.t;
}.
End SavedGame.

(** ** utils/clock.ts *)

Definition sideToLabel (side : Side) : WinnerLabel :=
  match side with W => white | B => black end.

Definition oppositeSide (side : Side) : Side :=
  match side with W => B | B => W end.

(** The two clocks of a game, [clocks: { w: number; b: number }]. *)
Record Clocks := mkClocks { w : Z; b : Z }.

(** [clocks[color]] *)
Definition clock_get (c : Clocks) (color : Side) : Z :=
  match color with W => c.(w) | B => c.(b) end.

(** [{ ...clocks, [color]: v }] *)
Definition clock_set (c : Clocks) (color : Side) (v : Z) : Clocks :=
  match color with
  | W => {| w := v; b := c.(b) |}
  | B => {| w := c.(w); b := v |}
  end.

(** ** The chess.js interface used by the screens.

    [Chess] is the state of a [chess.js] game object.  [chess_move]
    stands for [game.move({from, to, promotion})], which mutates the
    game: it returns the move that was played together with the game
    after it, or [None] for a falsy result, the one the callers test
    with [if (!move)].  The 1.x releases of [chess.js], whose method
    names the screens use, raise [Invalid move] on an illegal move
    instead of returning a falsy value, and no caller catches it; an
    exception is outside this interface.  So the [None] branch of a
    caller is the branch the source wrote for a refusal, and what the
    program does when the library raises is not described here. *)

Record ChessMove := mkChessMove {
  mv_from : string;
  mv_to : string;
  mv_san : string;
  mv_promotion : option string;
}.

Class ChessApi := {
  Chess : Type;
  (** [new Chess(fen)] *)
  chess_load : string -> Chess;
  chess_move : Chess -> string -> string -> string -> option (ChessMove * Chess);
  chess_fen : Chess -> string;
  chess_turn : Chess -> Side;
  isGameOver : Chess -> bool;
  isCheckmate : Chess -> bool;
  isStalemate : Chess -> bool;
  isThreefoldRepetition : Chess -> bool;
  isInsufficientMaterial : Chess -> bool;
}.

(** [x ?? d] on a value that may be [undefined]. *)
Definition nullish {A} (x : option A) (d : A) : A :=
  match x with Some v => v | None => d end.

(** [uci[4]]: the fifth character as a one-character string, or
    [undefined]. *)
Definition char_at (s : string) (i : nat) : option string :=
  match String.get i s with
  | Some c => Some (String c EmptyString)
  | None => None
  end.

(** [applyUci]: [uci.slice(0, 2)], [uci.slice(2, 4)] and
    [uci[4] ?? "q"] are handed to the oracle. *)
Definition applyUci `{ChessApi} (game : Chess) (uci : string)
  : option (ChessMove * Chess) :=
  chess_move game
    (String.substring 0 2 uci)
    (String.substring 2 2 uci)
    (nullish (char_at uci 4) "q"%string).

(** The outcome of a finished game, [{ winner; reason }]. *)
Record Outcome := mkOutcome {
  winner : Winner;
  reason : string;
}.

(** ** components/FriendRoomScreen.tsx *)

Module FriendRoomScreen.

Inductive Status := waiting | playing | ended.

#[global] Instance Status_eq_dec : EqDecision Status.
Proof. solve_decision. Defined.

Record RoomSnapshot := mkRoomSnapshot {
  fen : string;
  turn : Side;
  status : Status;
  resultWinner : Winner;
  resultReason : string;
  moves : list MoveRecord.t;
  lastMoveUci : option string;
  whiteName : string;
  blackName : string;
  drawOfferBy : option Side;
  clocks : Clocks;
  initialMs : Z;
  incrementMs : Z;
  activeColor : option Side;
  lastTickAt : Z;
}.

Definition getOutcomeFromChess `{ChessApi} (game : Chess) : option Outcome :=
  if negb (isGameOver game) then None
  else if isCheckmate game then
    Some {| winner := Some (match chess_turn game with W => black | B => white end);
            reason := "Checkmate" |}
  else if isStalemate game then
    Some {| winner := Some draw; reason := "Stalemate" |}
  else if isThreefoldRepetition game then
    Some {| winner := Some draw; reason := "Threefold repetition" |}
  else if isInsufficientMaterial game then
    Some {| winner := Some draw; reason := "Insufficient material" |}
  else
    Some {| winner := Some draw; reason := "Draw" |}.

Definition advanceClock (snapshot : RoomSnapshot) (now : Z) : RoomSnapshot :=
  match snapshot.(status), snapshot.(activeColor) with
  | playing, Some color =>
    let elapsed := now - snapshot.(lastTickAt) in
    if elapsed <=? 0 then snapshot
    else
      let remaining := clock_get snapshot.(clocks) color - elapsed in
      let nextSnapshot :=
        {| fen := snapshot.(fen);
           turn := snapshot.(turn);
           status := snapshot.(status);
           resultWinner := snapshot.(resultWinner);
           resultReason := snapshot.(resultReason);
           moves := snapshot.(moves);
           lastMoveUci := snapshot.(lastMoveUci);
           whiteName := snapshot.(whiteName);
           blackName := snapshot.(blackName);
           drawOfferBy := snapshot.(drawOfferBy);
           clocks := clock_set snapshot.(clocks) color (Z.max 0 remaining);
           initialMs := snapshot.(initialMs);
           incrementMs := snapshot.(incrementMs);
           activeColor := snapshot.(activeColor);
           lastTickAt := now |} in
      if remaining <=? 0 then
        {| fen := nextSnapshot.(fen);
           turn := nextSnapshot.(turn);
           status := ended;
           resultWinner := Some (sideToLabel (oppositeSide color));
           resultReason := "Flag";
           moves := nextSnapshot.(moves);
           lastMoveUci := nextSnapshot.(lastMoveUci);
           whiteName := nextSnapshot.(whiteName);
           blackName := nextSnapshot.(blackName);
           drawOfferBy := nextSnapshot.(drawOfferBy);
           clocks := nextSnapshot.(clocks);
           initialMs := nextSnapshot.(initialMs);
           incrementMs := nextSnapshot.(incrementMs);
           activeColor := None;
           lastTickAt := nextSnapshot.(lastTickAt) |}
      else nextSnapshot
  | _, _ => snapshot
  end.

(** The updater that [finalizeGame] hands to
    [updateSnapshotAndBroadcast]. *)
Definition finalizeGame (winner : Winner) (reason : string)
    (previous : RoomSnapshot) : RoomSnapshot :=
  {| fen := previous.(fen);
     turn := previous.(turn);
     status := ended;
     resultWinner := winner;
     resultReason := reason;
     moves := previous.(moves);
     lastMoveUci := previous.(lastMoveUci);
     whiteName := previous.(whiteName);
     blackName := previous.(blackName);
     drawOfferBy := None;
     clocks := previous.(clocks);
     initialMs := previous.(initialMs);
     incrementMs := previous.(incrementMs);
     activeColor := None;
     lastTickAt := previous.(lastTickAt) |}.

(** [nextMove] of [hostApplyMove]. *)
Definition nextMoveRecord `{ChessApi} (current : RoomSnapshot)
    (moverSide : Side) (move : ChessMove) (chess : Chess) : MoveRecord.t :=
  {| MoveRecord.ply := Z.of_nat (length current.(moves)) + 1;
     MoveRecord.side := moverSide;
     MoveRecord.san := move.(mv_san);
     MoveRecord.uci :=
       move.(mv_from) +:+ move.(mv_to) +:+ nullish move.(mv_promotion) ""%string;
     MoveRecord.fenAfter := chess_fen chess |}.

(** [hostApplyMove], as its state updater: the pair of the value the
    updater leaves in the local variable [accepted] and of the snapshot
    the updater produces.  The function itself returns [accepted] as it
    stands when [setSnapshot] comes back, which is the updater's value
    only if React has run the updater by then, and [false] otherwise;
    that return value is not modelled.  The source reads [Date.now()]
    twice, once for the clock advance ([now]) and once for the
    refreshed [lastTickAt] ([now']). *)
Definition hostApplyMove `{ChessApi} (uci : string) (moverSide : Side)
    (now now' : Z) (previous : RoomSnapshot) : bool * RoomSnapshot :=
  let current := advanceClock previous now in
  if negb (bool_decide (current.(status) = playing)) then (false, current)
  else if negb (bool_decide (current.(turn) = moverSide)) then (false, current)
  else
    match applyUci (chess_load current.(fen)) uci with
    | None => (false, current)
    | Some (move, chess) =>
      let nextMove := nextMoveRecord current moverSide move chess in
      let outcome := getOutcomeFromChess chess in
      (true,
       {| fen := chess_fen chess;
          turn := chess_turn chess;
          status := match outcome with Some _ => ended | None => playing end;
          resultWinner :=
            match outcome with Some o => o.(winner) | None => None end;
          resultReason :=
            match outcome with Some o => o.(reason) | None => ""%string end;
          moves := current.(moves) ++ [nextMove];
          lastMoveUci := Some nextMove.(MoveRecord.uci);
          whiteName := current.(whiteName);
          blackName := current.(blackName);
          drawOfferBy := None;
          clocks :=
            clock_set current.(clocks) moverSide
              (clock_get current.(clocks) moverSide + current.(incrementMs));
          initialMs := current.(initialMs);
          incrementMs := current.(incrementMs);
          activeColor :=
            match outcome with Some _ => None | None => Some (chess_turn chess) end;
          lastTickAt := now' |})
    end.

(** *** The host's event handlers *)

Inductive NetworkMessage :=
| MsgJoin (name : string)
| MsgRoomStart (snapshot : RoomSnapshot) (guestSide : Side)
| MsgSnapshot (snapshot : RoomSnapshot)
| MsgMove (uci : string)
| MsgChat (message : ChatMessage.t)
| MsgDrawOffer
| MsgDrawResponse (accepted : bool)
| MsgResign
| MsgError (message : string).

(** What the host screen is configured with: [hostSideRef.current]
    (which is also the host's [localSide]) and [hostConfig.hostName]. *)
Record HostEnv := mkHostEnv {
  hostSide : Side;
  hostName : string;
}.

(** [{ ...previous, drawOfferBy: offer }] *)
Definition withDrawOffer (offer : option Side) (previous : RoomSnapshot)
  : RoomSnapshot :=
  {| fen := previous.(fen);
     turn := previous.(turn);
     status := previous.(status);
     resultWinner := previous.(resultWinner);
     resultReason := previous.(resultReason);
     moves := previous.(moves);
     lastMoveUci := previous.(lastMoveUci);
     whiteName := previous.(whiteName);
     blackName := previous.(blackName);
     drawOfferBy := offer;
     clocks := previous.(clocks);
     initialMs := previous.(initialMs);
     incrementMs := previous.(incrementMs);
     activeColor := previous.(activeColor);
     lastTickAt := previous.(lastTickAt) |}.

(** [startedSnapshot] of the ["join"] branch. *)
Definition startedSnapshot (env : HostEnv) (name : string) (now : Z)
    (baseSnapshot : RoomSnapshot) : RoomSnapshot :=
  {| fen := baseSnapshot.(fen);
     turn := W;
     status := playing;
     resultWinner := baseSnapshot.(resultWinner);
     resultReason := baseSnapshot.(resultReason);
     moves := baseSnapshot.(moves);
     lastMoveUci := baseSnapshot.(lastMoveUci);
     whiteName := if bool_decide (env.(hostSide) = W) then env.(hostName) else name;
     blackName := if bool_decide (env.(hostSide) = B) then env.(hostName) else name;
     drawOfferBy := baseSnapshot.(drawOfferBy);
     clocks := baseSnapshot.(clocks);
     initialMs := baseSnapshot.(initialMs);
     incrementMs := baseSnapshot.(incrementMs);
     activeColor := Some W;
     lastTickAt := now |}.

(** The host's [connection.on("data")] handler, as the snapshot it
    leaves behind.  The chat log is a separate piece of state that no
    snapshot field depends on; a message of a type without a branch
    ([room-start], [snapshot], [error]) falls through. *)
Definition hostOnData `{ChessApi} (env : HostEnv) (now now' : Z)
    (message : NetworkMessage) (snapshot : RoomSnapshot) : RoomSnapshot :=
  match message with
  | MsgJoin name => startedSnapshot env name now snapshot
  | MsgMove uci =>
    (hostApplyMove uci (oppositeSide env.(hostSide)) now now' snapshot).2
  | MsgChat _ => snapshot
  | MsgDrawOffer =>
    withDrawOffer (Some (oppositeSide env.(hostSide))) snapshot
  | MsgDrawResponse accepted =>
    if accepted then finalizeGame (Some draw) "Agreement" snapshot
    else withDrawOffer None snapshot
  | MsgResign =>
    finalizeGame (Some (sideToLabel env.(hostSide))) "Resign" snapshot
  | MsgRoomStart _ _ | MsgSnapshot _ | MsgError _ => snapshot
  end.

(** The host's [connection.on("close")] handler. *)
Definition hostOnClose (env : HostEnv) (snapshot : RoomSnapshot) : RoomSnapshot :=
  if bool_decide (snapshot.(status) = playing)
  then finalizeGame (Some (sideToLabel env.(hostSide))) "Opponent disconnected" snapshot
  else snapshot.

(** The UI callbacks in host mode ([isHost] true, [localSide] the
    host's side).  The first component of [onMove] is, as for
    [hostApplyMove], the value left in [accepted]. *)
Definition onMove `{ChessApi} (env : HostEnv) (uci : string) (now now' : Z)
    (snapshot : RoomSnapshot) : bool * RoomSnapshot :=
  if negb (bool_decide (snapshot.(status) = playing)) then (false, snapshot)
  else if negb (bool_decide (snapshot.(turn) = env.(hostSide))) then (false, snapshot)
  else hostApplyMove uci env.(hostSide) now now' snapshot.

Definition onOfferDraw (env : HostEnv) (snapshot : RoomSnapshot) : RoomSnapshot :=
  if negb (bool_decide (snapshot.(status) = playing)) then snapshot
  else withDrawOffer (Some env.(hostSide)) snapshot.

Definition onAcceptDraw (snapshot : RoomSnapshot) : RoomSnapshot :=
  finalizeGame (Some draw) "Agreement" snapshot.

Definition onDeclineDraw (snapshot : RoomSnapshot) : RoomSnapshot :=
  withDrawOffer None snapshot.

Definition onResign (env : HostEnv) (snapshot : RoomSnapshot) : RoomSnapshot :=
  if negb (bool_decide (snapshot.(status) = playing)) then snapshot
  else finalizeGame (Some (sideToLabel (oppositeSide env.(hostSide)))) "Resign" snapshot.

(** [components/GameArena.tsx]: the Accept Draw and Decline buttons
    are rendered when [drawOfferBy !== null && drawOfferBy !== localSide];
    Offer Draw is disabled when
    [status !== "playing" || drawOfferBy === localSide] and Resign when
    [status !== "playing"]. *)
Definition drawOfferFromOpponent (localSide : Side) (snapshot : RoomSnapshot)
  : bool :=
  match snapshot.(drawOfferBy) with
  | Some side => negb (bool_decide (side = localSide))
  | None => false
  end.

Definition offerDrawDisabled (localSide : Side) (snapshot : RoomSnapshot)
  : bool :=
  negb (bool_decide (snapshot.(status) = playing))
  || bool_decide (snapshot.(drawOfferBy) = Some localSide).

Definition resignDisabled (snapshot : RoomSnapshot) : bool :=
  negb (bool_decide (snapshot.(status) = playing)).

(** Everything that can reach the host's snapshot.  [Tick] is the
    250 ms interval; the local events are button presses, which reach
    their callback only when the button is there to be pressed. *)
Inductive HostEvent :=
| Data (message : NetworkMessage)
| Close
| Tick
| LocalMove (uci : string)
| LocalSendChat (text : string)
| LocalOfferDraw
| LocalAcceptDraw
| LocalDeclineDraw
| LocalResign.

Definition hostStep `{ChessApi} (env : HostEnv) (now now' : Z)
    (event : HostEvent) (snapshot : RoomSnapshot) : RoomSnapshot :=
  match event with
  | Data message => hostOnData env now now' message snapshot
  | Close => hostOnClose env snapshot
  | Tick => advanceClock snapshot now
  | LocalMove uci => (onMove env uci now now' snapshot).2
  | LocalSendChat _ => snapshot
  | LocalOfferDraw =>
    if offerDrawDisabled env.(hostSide) snapshot then snapshot
    else onOfferDraw env snapshot
  | LocalAcceptDraw =>
    if drawOfferFromOpponent env.(hostSide) snapshot then onAcceptDraw snapshot
    else snapshot
  | LocalDeclineDraw =>
    if drawOfferFromOpponent env.(hostSide) snapshot then onDeclineDraw snapshot
    else snapshot
  | LocalResign =>
    if resignDisabled snapshot then snapshot else onResign env snapshot
  end.

End FriendRoomScreen.

(** ** components/AiGameScreen.tsx *)

Module AiGameScreen.

(** [status: "playing" | "ended"] *)
Inductive Status := playing | ended.

#[global] Instance Status_eq_dec : EqDecision Status.
Proof. solve_decision. Defined.

Record LiveState := mkLiveState {
  fen : string;
  turn : Side;
  status : Status;
  resultWinner : Winner;
  resultReason : string;
  moves : list MoveRecord.t;
  lastMoveUci : option string;
  clocks : Clocks;
  initialMs : Z;
  incrementMs : Z;
  activeColor : option Side;
  lastTickAt : Z;
}.

Definition advanceClock (state : LiveState) (now : Z) : LiveState :=
  match state.(status), state.(activeColor) with
  | playing, Some color =>
    let elapsed := now - state.(lastTickAt) in
    if elapsed <=? 0 then state
    else
      let remaining := clock_get state.(clocks) color - elapsed in
      let updated :=
        {| fen := state.(fen);
           turn := state.(turn);
           status := state.(status);
           resultWinner := state.(resultWinner);
           resultReason := state.(resultReason);
           moves := state.(moves);
           lastMoveUci := state.(lastMoveUci);
           clocks := clock_set state.(clocks) color (Z.max 0 remaining);
           initialMs := state.(initialMs);
           incrementMs := state.(incrementMs);
           activeColor := state.(activeColor);
           lastTickAt := now |} in
      if remaining <=? 0 then
        {| fen := updated.(fen);
           turn := updated.(turn);
           status := ended;
           resultWinner := Some (sideToLabel (oppositeSide color));
           resultReason := "Flag";
           moves := updated.(moves);
           lastMoveUci := updated.(lastMoveUci);
           clocks := updated.(clocks);
           initialMs := updated.(initialMs);
           incrementMs := updated.(incrementMs);
           activeColor := None;
           lastTickAt := updated.(lastTickAt) |}
      else updated
  | _, _ => state
  end.

End AiGameScreen.

(** ** utils/storage.ts *)

Module Storage.

(** What [JSON.parse(raw) as SavedGame[]] followed by
    [Array.isArray] can tell the caller: the parse threw, or it gave
    something that is not an array, or it gave an array. *)
Inductive Parsed :=
| ParseError
| NotArray
| ParsedArray (games : list SavedGame.t).

Class JsonApi := {
  JSON_parse : string -> Parsed;
  JSON_stringify : list SavedGame.t -> string;
}.

(** The value of [localStorage.getItem(GAMES_KEY)]: [null] or a
    string. *)
Definition Store := option string.

(** The order that the comparator [(a, b) => b.createdAt - a.createdAt]
    sorts into: newest first. *)
Definition newerFirst (a b : SavedGame.t) : Prop :=
  b.(SavedGame.createdAt) <= a.(SavedGame.createdAt).

#[global] Instance newerFirst_dec : RelDecision newerFirst.
Proof. intros x y. unfold newerFirst. apply _. Defined.

#[global] Instance newerFirst_total : Total newerFirst.
Proof. intros x y. unfold newerFirst. lia. Qed.

(** [parsed.sort((a, b) => b.createdAt - a.createdAt)].
    [Array.prototype.sort] is stable: games created at the same time
    keep their order.  A game is put in front of the first game that
    is not newer than it, so it stays ahead of the later games of the
    same time. *)
Fixpoint insertGame (game : SavedGame.t) (sorted : list SavedGame.t)
  : list SavedGame.t :=
  match sorted with
  | [] => [game]
  | head :: rest =>
    if decide (newerFirst game head) then game :: sorted
    else head :: insertGame game rest
  end.

Definition sortGames (parsed : list SavedGame.t) : list SavedGame.t :=
  foldr insertGame [] parsed.

Definition loadGames `{JsonApi} (store : Store) : list SavedGame.t :=
  match store with
  | None => []
  | Some raw =>
    if bool_decide (raw = ""%string) then []
    else
      match JSON_parse raw with
      | ParsedArray parsed => sortGames parsed
      | NotArray => []
      | ParseError => []
      end
  end.

(** [saveGame]: the store it leaves behind and the list it returns. *)
Definition saveGame `{JsonApi} (game : SavedGame.t) (store : Store)
  : Store * list SavedGame.t :=
  let games := loadGames store in
  let next := take 200 (game :: games) in
  (Some (JSON_stringify next), next).

End Storage.

(** ** Specification vocabulary *)

(** The fields that a clock advance never writes. *)
Definition clockFrame (s s' : FriendRoomScreen.RoomSnapshot) : Prop :=
  FriendRoomScreen.fen s' = FriendRoomScreen.fen s /\
  FriendRoomScreen.turn s' = FriendRoomScreen.turn s /\
  FriendRoomScreen.moves s' = FriendRoomScreen.moves s /\
  FriendRoomScreen.lastMoveUci s' = FriendRoomScreen.lastMoveUci s /\
  FriendRoomScreen.whiteName s' = FriendRoomScreen.whiteName s /\
  FriendRoomScreen.blackName s' = FriendRoomScreen.blackName s /\
  FriendRoomScreen.drawOfferBy s' = FriendRoomScreen.drawOfferBy s /\
  FriendRoomScreen.initialMs s' = FriendRoomScreen.initialMs s /\
  FriendRoomScreen.incrementMs s' = FriendRoomScreen.incrementMs s.

(** The two status types, side by side. *)
Definition statusAgree (a : AiGameScreen.Status) (r : FriendRoomScreen.Status)
  : Prop :=
  match a, r with
  | AiGameScreen.playing, FriendRoomScreen.playing => True
  | AiGameScreen.ended, FriendRoomScreen.ended => True
  | _, _ => False
  end.

(** A local state and a room snapshot agree on the fields the two
    clock functions share. *)
Definition agree (st : AiGameScreen.LiveState)
    (s : FriendRoomScreen.RoomSnapshot) : Prop :=
  statusAgree (AiGameScreen.status st) (FriendRoomScreen.status s) /\
  AiGameScreen.clocks st = FriendRoomScreen.clocks s /\
  AiGameScreen.activeColor st = FriendRoomScreen.activeColor s /\
  AiGameScreen.lastTickAt st = FriendRoomScreen.lastTickAt s /\
  AiGameScreen.resultWinner st = FriendRoomScreen.resultWinner s /\
  AiGameScreen.resultReason st = FriendRoomScreen.resultReason s.

(** The events whose handlers test the status (or carry no branch
    that writes the snapshot) before they write. *)
Definition statusGuarded (event : FriendRoomScreen.HostEvent) : bool :=
  match event with
  | FriendRoomScreen.Data (FriendRoomScreen.MsgMove _)
  | FriendRoomScreen.Data (FriendRoomScreen.MsgChat _)
  | FriendRoomScreen.Data (FriendRoomScreen.MsgRoomStart _ _)
  | FriendRoomScreen.Data (FriendRoomScreen.MsgSnapshot _)
  | FriendRoomScreen.Data (FriendRoomScreen.MsgError _)
  | FriendRoomScreen.Close
  | FriendRoomScreen.Tick
  | FriendRoomScreen.LocalMove _
  | FriendRoomScreen.LocalSendChat _
  | FriendRoomScreen.LocalOfferDraw
  | FriendRoomScreen.LocalResign => true
  | _ => false
  end.

(** The games held by the store: the array that its text parses to,
    nothing when there is no text or no array. *)
Definition persistedGames `{Storage.JsonApi} (store : Storage.Store)
  : list SavedGame.t :=
  match store with
  | None => []
  | Some raw =>
    if bool_decide (raw = ""%string) then []
    else match Storage.JSON_parse raw with
         | Storage.ParsedArray games => games
         | _ => []
         end
  end.

(** ** Sample data: a five-minute room, a stand-in oracle and a
    stand-in JSON codec, used to exercise the statements below. *)

Module Sample.

(** A tiny oracle over position tags.  It knows one opening move, one
    mating move and one finished position per terminal condition. *)
Definition sample_move (game from to promotion : string)
  : option (ChessMove * string) :=
  if (String.eqb game "start" && String.eqb from "e2" && String.eqb to "e4")%bool
  then Some ({| mv_from := "e2"; mv_to := "e4"; mv_san := "e4";
                mv_promotion := None |}, "after-e4"%string)
  else if (String.eqb game "before-mate" && String.eqb from "d8"
           && String.eqb to "h4")%bool
  then Some ({| mv_from := "d8"; mv_to := "h4"; mv_san := "Qh4#";
                mv_promotion := None |}, "mate"%string)
  else None.

#[local] Instance oracle : ChessApi := {|
  Chess := string;
  chess_load := fun fen => fen;
  chess_move := sample_move;
  chess_fen := fun game => game;
  chess_turn := fun game =>
    if (String.eqb game "start" || String.eqb game "mate")%bool then W else B;
  isGameOver := fun game =>
    (String.eqb game "mate" || String.eqb game "stalemate"
     || String.eqb game "threefold" || String.eqb game "bare-kings"
     || String.eqb game "fifty-moves")%bool;
  isCheckmate := fun game => String.eqb game "mate";
  isStalemate := fun game => String.eqb game "stalemate";
  isThreefoldRepetition := fun game => String.eqb game "threefold";
  isInsufficientMaterial := fun game => String.eqb game "bare-kings";
|}.

#[local] Instance json : Storage.JsonApi := {|
  Storage.JSON_parse := fun raw =>
    if String.eqb raw "[]" then Storage.ParsedArray []
    else if String.eqb raw "{}" then Storage.NotArray
    else Storage.ParseError;
  Storage.JSON_stringify := fun games =>
    match games with [] => "[]"%string | _ => "[...]"%string end;
|}.

(** White to move in the initial position, five minutes each, three
    seconds increment, clocks last reconciled at time 0. *)
Definition room : FriendRoomScreen.RoomSnapshot :=
  {| FriendRoomScreen.fen := "start";
     FriendRoomScreen.turn := W;
     FriendRoomScreen.status := FriendRoomScreen.playing;
     FriendRoomScreen.resultWinner := None;
     FriendRoomScreen.resultReason := "";
     FriendRoomScreen.moves := [];
     FriendRoomScreen.lastMoveUci := None;
     FriendRoomScreen.whiteName := "Ann";
     FriendRoomScreen.blackName := "Bob";
     FriendRoomScreen.drawOfferBy := None;
     FriendRoomScreen.clocks := {| w := 300000; b := 300000 |};
     FriendRoomScreen.initialMs := 300000;
     FriendRoomScreen.incrementMs := 3000;
     FriendRoomScreen.activeColor := Some W;
     FriendRoomScreen.lastTickAt := 0 |}.

(** The same room once White has been checkmated. *)
Definition finishedRoom : FriendRoomScreen.RoomSnapshot :=
  {| FriendRoomScreen.fen := "mate";
     FriendRoomScreen.turn := W;
     FriendRoomScreen.status := FriendRoomScreen.ended;
     FriendRoomScreen.resultWinner := Some black;
     FriendRoomScreen.resultReason := "Checkmate";
     FriendRoomScreen.moves := [];
     FriendRoomScreen.lastMoveUci := None;
     FriendRoomScreen.whiteName := "Ann";
     FriendRoomScreen.blackName := "Bob";
     FriendRoomScreen.drawOfferBy := None;
     FriendRoomScreen.clocks := {| w := 300000; b := 300000 |};
     FriendRoomScreen.initialMs := 300000;
     FriendRoomScreen.incrementMs := 3000;
     FriendRoomScreen.activeColor := None;
     FriendRoomScreen.lastTickAt := 0 |}.

(** The local game that agrees with [room]. *)
Definition liveGame : AiGameScreen.LiveState :=
  {| AiGameScreen.fen := "start";
     AiGameScreen.turn := W;
     AiGameScreen.status := AiGameScreen.playing;
     AiGameScreen.resultWinner := None;
     AiGameScreen.resultReason := "";
     AiGameScreen.moves := [];
     AiGameScreen.lastMoveUci := None;
     AiGameScreen.clocks := {| w := 300000; b := 300000 |};
     AiGameScreen.initialMs := 300000;
     AiGameScreen.incrementMs := 3000;
     AiGameScreen.activeColor := Some W;
     AiGameScreen.lastTickAt := 0 |}.

Definition host : FriendRoomScreen.HostEnv :=
  {| FriendRoomScreen.hostSide := W; FriendRoomScreen.hostName := "Ann" |}.

End Sample.

(** ** More of the sources

    The rest of [components/FriendRoomScreen.tsx] (chat log, room
    creation, the guest's handlers, the saved record), the move
    application of [components/AiGameScreen.tsx], and the remaining
    functions of [utils/storage.ts], [utils/clock.ts],
    [utils/engine.ts], with the helpers of [components/GameArena.tsx],
    [components/ChessBoardPanel.tsx], [components/FriendSetup.tsx] and
    [utils/chessInsight.ts] that they meet. *)

(** [Math.round(a / d)] for integers [a] and [d > 0]: the nearest
    integer, a half going up. *)
Definition jsRoundDiv (a d : Z) : Z := (2 * a + d) / (2 * d).

Inductive ColorPreference := PreferWhite | PreferBlack | PreferRandom.

Module HostRoomConfig.
Record t := mk {
  hostName : string;
  roomCode : string;
  preferredColor : ColorPreference;
  timeControl : TimeControl.t;
}.
End HostRoomConfig.

(** [components/FriendSetup.tsx], [createRoom]: the time control that
    the form hands over (the same expression is in [AiSetup.submit]). *)
Definition setupTimeControl (minutes increment : Z) : TimeControl.t :=
  {| TimeControl.initialMinutes := Z.max 1 minutes;
     TimeControl.incrementSeconds := Z.max 0 increment |}.

Section RoomRest.
Import FriendRoomScreen.

(** [determineHostSide]; [coin] is [Math.random() > 0.5]. *)
Definition determineHostSide (preferredColor : ColorPreference) (coin : bool)
  : Side :=
  match preferredColor with
  | PreferWhite => W
  | PreferBlack => B
  | PreferRandom => if coin then W else B
  end.

(** The initial value of the [snapshot] state.  [startFen] is
    [new Chess().fen()] and [now] is [Date.now()]. *)
Definition initialSnapshot (isHost : bool)
    (hostConfig : option HostRoomConfig.t) (hostSideRef : Side)
    (startFen : string) (now : Z) : RoomSnapshot :=
  let initialMs :=
    nullish (TimeControl.initialMinutes
               <$> (HostRoomConfig.timeControl <$> hostConfig)) 5 * 60 * 1000 in
  let name := nullish (HostRoomConfig.hostName <$> hostConfig) "Host"%string in
  {| fen := startFen;
     turn := W;
     status := waiting;
     resultWinner := None;
     resultReason := "";
     moves := [];
     lastMoveUci := None;
     whiteName :=
       if isHost && bool_decide (hostSideRef = W) then name else "Waiting..."%string;
     blackName :=
       if isHost && bool_decide (hostSideRef = B) then name else "Waiting..."%string;
     drawOfferBy := None;
     clocks := {| w := initialMs; b := initialMs |};
     initialMs := initialMs;
     incrementMs :=
       nullish (TimeControl.incrementSeconds
                  <$> (HostRoomConfig.timeControl <$> hostConfig)) 3 * 1000;
     activeColor := None;
     lastTickAt := now |}.

(** [appendUniqueMessage] *)
Definition appendUniqueMessage (messages : list ChatMessage.t)
    (message : ChatMessage.t) : list ChatMessage.t :=
  if existsb (fun entry =>
                String.eqb (ChatMessage.id entry) (ChatMessage.id message))
       messages
  then messages
  else messages ++ [message].

(** [createSavedRecord]; [id] is [createId("game")], [createdAt] is
    [Date.now()], [startFen] is [START_FEN] and [pgn] is
    [buildPgn(finalSnapshot.moves)]. *)
Definition createSavedRecord (id : string) (createdAt : Z)
    (startFen pgn : string) (finalSnapshot : RoomSnapshot)
    (chats : list ChatMessage.t) : SavedGame.t :=
  let timeControl :=
    {| TimeControl.initialMinutes :=
         Z.max 1 (jsRoundDiv finalSnapshot.(initialMs) 60000);
       TimeControl.incrementSeconds :=
         jsRoundDiv finalSnapshot.(incrementMs) 1000 |} in
  {| SavedGame.id := id;
     SavedGame.mode := friend;
     SavedGame.createdAt := createdAt;
     SavedGame.whiteName := finalSnapshot.(whiteName);
     SavedGame.blackName := finalSnapshot.(blackName);
     SavedGame.resultWinner := finalSnapshot.(resultWinner);
     SavedGame.resultReason := finalSnapshot.(resultReason);
     SavedGame.timeControl := Some timeControl;
     SavedGame.startFen := startFen;
     SavedGame.finalFen := finalSnapshot.(fen);
     SavedGame.pgn := pgn;
     SavedGame.moves := finalSnapshot.(moves);
     SavedGame.chats := chats |}.

(** A run of the host: the events in the order the event loop takes
    them, each with the two clock readings its handler makes. *)
Fixpoint hostRun `{ChessApi} (env : HostEnv)
    (events : list (Z * Z * HostEvent)) (snapshot : RoomSnapshot)
  : RoomSnapshot :=
  match events with
  | [] => snapshot
  | (now, now', event) :: rest =>
    hostRun env rest (hostStep env now now' event snapshot)
  end.

(** *** The guest's side of the room *)

(** The guest keeps its side and its copy of the snapshot. *)
Record GuestState := mkGuestState {
  localSide : Side;
  view : RoomSnapshot;
}.

(** [{ ...previous, status: "ended", activeColor: null, resultWinner,
    resultReason }], the guest's two local endings. *)
Definition endedLocally (winner : Winner) (reason : string)
    (previous : RoomSnapshot) : RoomSnapshot :=
  {| fen := previous.(fen);
     turn := previous.(turn);
     status := ended;
     resultWinner := winner;
     resultReason := reason;
     moves := previous.(moves);
     lastMoveUci := previous.(lastMoveUci);
     whiteName := previous.(whiteName);
     blackName := previous.(blackName);
     drawOfferBy := previous.(drawOfferBy);
     clocks := previous.(clocks);
     initialMs := previous.(initialMs);
     incrementMs := previous.(incrementMs);
     activeColor := None;
     lastTickAt := previous.(lastTickAt) |}.

(** The guest's [connection.on("data")] handler; chat and error
    messages do not reach the snapshot. *)
Definition guestOnData (message : NetworkMessage) (guest : GuestState)
  : GuestState :=
  match message with
  | MsgRoomStart snapshot guestSide =>
    {| localSide := guestSide; view := snapshot |}
  | MsgSnapshot snapshot =>
    {| localSide := guest.(localSide); view := snapshot |}
  | _ => guest
  end.

(** The guest's [connection.on("close")] handler. *)
Definition guestOnClose (guest : GuestState) : GuestState :=
  if bool_decide (guest.(view).(status) = playing)
  then {| localSide := guest.(localSide);
          view := endedLocally (Some (sideToLabel guest.(localSide)))
                    "Opponent disconnected" guest.(view) |}
  else guest.

(** [onResign] in guest mode: the message handed to [sendMessage], if
    any, and the guest's state afterwards. *)
Definition guestOnResign (guest : GuestState)
  : option NetworkMessage * GuestState :=
  if negb (bool_decide (guest.(view).(status) = playing)) then (None, guest)
  else
    (Some MsgResign,
     {| localSide := guest.(localSide);
        view := endedLocally
                  (Some (sideToLabel (oppositeSide guest.(localSide))))
                  "Resign" guest.(view) |}).

(** What the host sends back on ["join"]. *)
Definition hostJoinReply (env : HostEnv) (name : string) (now : Z)
    (baseSnapshot : RoomSnapshot) : NetworkMessage :=
  MsgRoomStart (startedSnapshot env name now baseSnapshot)
    (oppositeSide env.(hostSide)).

End RoomRest.

(** *** components/AiGameScreen.tsx: outcome and move application *)

Definition resolveGameOutcome `{ChessApi} (game : Chess) : option Outcome :=
  if negb (isGameOver game) then None
  else if isCheckmate game then
    Some {| winner := Some (match chess_turn game with W => black | B => white end);
            reason := "Checkmate" |}
  else if isStalemate game then
    Some {| winner := Some draw; reason := "Stalemate" |}
  else if isThreefoldRepetition game then
    Some {| winner := Some draw; reason := "Threefold repetition" |}
  else if isInsufficientMaterial game then
    Some {| winner := Some draw; reason := "Insufficient material" |}
  else
    Some {| winner := Some draw; reason := "Draw" |}.

(** [tryApplyMove], as its state updater: the value the updater leaves
    in [accepted] and the state it produces (the function's own return
    value, read before React need have run the updater, is not
    modelled); [now] and [now'] are its two [Date.now()] readings. *)
Definition tryApplyMove `{ChessApi} (uci : string) (mover : Side)
    (now now' : Z) (previous : AiGameScreen.LiveState)
  : bool * AiGameScreen.LiveState :=
  let current := AiGameScreen.advanceClock previous now in
  if negb (bool_decide (AiGameScreen.status current = AiGameScreen.playing))
  then (false, current)
  else if negb (bool_decide (AiGameScreen.turn current = mover))
  then (false, current)
  else
    match applyUci (chess_load (AiGameScreen.fen current)) uci with
    | None => (false, current)
    | Some (move, game) =>
      let moveRecord :=
        {| MoveRecord.ply := Z.of_nat (length (AiGameScreen.moves current)) + 1;
           MoveRecord.side := mover;
           MoveRecord.san := move.(mv_san);
           MoveRecord.uci :=
             move.(mv_from) +:+ move.(mv_to)
             +:+ nullish move.(mv_promotion) ""%string;
           MoveRecord.fenAfter := chess_fen game |} in
      let outcome := resolveGameOutcome game in
      (true,
       {| AiGameScreen.fen := chess_fen game;
          AiGameScreen.turn := chess_turn game;
          AiGameScreen.status :=
            match outcome with
            | Some _ => AiGameScreen.ended
            | None => AiGameScreen.playing
            end;
          AiGameScreen.resultWinner :=
            match outcome with Some o => o.(winner) | None => None end;
          AiGameScreen.resultReason :=
            match outcome with Some o => o.(reason) | None => ""%string end;
          AiGameScreen.moves := AiGameScreen.moves current ++ [moveRecord];
          AiGameScreen.lastMoveUci := Some moveRecord.(MoveRecord.uci);
          AiGameScreen.clocks :=
            clock_set (AiGameScreen.clocks current) mover
              (clock_get (AiGameScreen.clocks current) mover
               + AiGameScreen.incrementMs current);
          AiGameScreen.initialMs := AiGameScreen.initialMs current;
          AiGameScreen.incrementMs := AiGameScreen.incrementMs current;
          AiGameScreen.activeColor :=
            match outcome with
            | Some _ => None
            | None => Some (chess_turn game)
            end;
          AiGameScreen.lastTickAt := now' |})
    end.

(** A local game and a room agree on everything they both have. *)
Definition agreeGame (st : AiGameScreen.LiveState)
    (s : FriendRoomScreen.RoomSnapshot) : Prop :=
  agree st s /\
  AiGameScreen.fen st = FriendRoomScreen.fen s /\
  AiGameScreen.turn st = FriendRoomScreen.turn s /\
  AiGameScreen.moves st = FriendRoomScreen.moves s /\
  AiGameScreen.lastMoveUci st = FriendRoomScreen.lastMoveUci s /\
  AiGameScreen.initialMs st = FriendRoomScreen.initialMs s /\
  AiGameScreen.incrementMs st = FriendRoomScreen.incrementMs s.

(** *** utils/storage.ts: the rest *)

(** [String.prototype.trim], a built-in. *)
Class StringApi := {
  trim : string -> string;
}.

(** [s || d] on strings: the empty string is falsy. *)
Definition orElse (s d : string) : string :=
  if bool_decide (s = ""%string) then d else s.

Section StorageRest.
Import Storage.

(** [getGameById] *)
Definition getGameById `{JsonApi} (id : string) (store : Store)
  : option SavedGame.t :=
  find (fun item => String.eqb (SavedGame.id item) id) (loadGames store).

(** [clearGames]: [localStorage.removeItem(GAMES_KEY)] *)
Definition clearGames (store : Store) : Store := None.

(** [loadPlayerName]; [store] is the value under [PLAYER_NAME_KEY]. *)
Definition loadPlayerName `{StringApi} (store : option string) : string :=
  match store with
  | None => "Player"%string
  | Some value =>
    if bool_decide (value = ""%string) then "Player"%string
    else orElse (trim value) "Player"%string
  end.

(** [savePlayerName]: the value it leaves under [PLAYER_NAME_KEY]. *)
Definition savePlayerName `{StringApi} (name : string) : option string :=
  Some (orElse (trim name) "Player"%string).

End StorageRest.

(** *** utils/clock.ts: the rest *)

(** [s.padStart(2, "0")] *)
Definition padStart2 (s : string) : string :=
  match String.length s with
  | 0%nat => "00"%string
  | 1%nat => "0" +:+ s
  | _ => s
  end.

(** [formatClock]; [Math.floor] of a whole number of milliseconds is
    that number, and [String(n)] is the decimal numeral. *)
Definition formatClock (milliseconds : Z) : string :=
  let clamped := Z.max 0 milliseconds in
  let totalSeconds := clamped / 1000 in
  let minutes := totalSeconds / 60 in
  let seconds := totalSeconds `mod` 60 in
  padStart2 (pretty minutes) +:+ ":" +:+ padStart2 (pretty seconds).

(** *** utils/engine.ts *)

(** [map[clamped]] on the four-entry table of [aiLevelToDepth]. *)
Definition depthTable (key : Z) : option Z :=
  match key with
  | 1 => Some 6 | 2 => Some 9 | 3 => Some 12 | 4 => Some 15
  | _ => None
  end.

Definition aiLevelToDepth (level : Z) : option Z :=
  let clamped := Z.max 1 (Z.min 4 level) in
  depthTable clamped.

Definition thinkDelayTable (key : Z) : option Z :=
  match key with
  | 1 => Some 180 | 2 => Some 320 | 3 => Some 520 | 4 => Some 760
  | _ => None
  end.

Definition aiLevelToThinkDelayMs (level : Z) : option Z :=
  let clamped := Z.max 1 (Z.min 4 level) in
  thinkDelayTable clamped.

Inductive MoveQuality := best | good | inaccuracy | mistake | blunder.

Definition qualityFromLoss (lossForMover : Z) : MoveQuality :=
  if lossForMover <=? 20 then best
  else if lossForMover <=? 50 then good
  else if lossForMover <=? 99 then inaccuracy
  else if lossForMover <=? 249 then mistake
  else blunder.

(** How bad a quality is, from [best] (0) to [blunder] (4). *)
Definition severity (quality : MoveQuality) : Z :=
  match quality with
  | best => 0 | good => 1 | inaccuracy => 2 | mistake => 3 | blunder => 4
  end.

(** *** utils/chessInsight.ts *)

(** [mirrorSquareIndex]; [%] is the truncating remainder and
    [Math.floor] of the quotient is the floor division. *)
Definition mirrorSquareIndex (index : Z) : Z :=
  let file := Z.rem index 8 in
  let rank := index / 8 in
  (7 - rank) * 8 + file.

(** [toSortScore]; [mate] is [number | null]. *)
Definition toSortScore (centipawns : Z) (mate : option Z) : Z :=
  match mate with
  | None => centipawns
  | Some m => if 0 <? m then 100000 - m * 100 else -100000 - m * 100
  end.

(** [applyUciMove], the analysis page's own copy of [applyUci]. *)
Definition applyUciMove `{ChessApi} (game : Chess) (uci : string)
  : option (ChessMove * Chess) :=
  let from := String.substring 0 2 uci in
  let to := String.substring 2 2 uci in
  let promotion :=
    if (4 <? String.length uci)%nat then nullish (char_at uci 4) "q"%string
    else "q"%string in
  chess_move game from to promotion.

(** *** components/ChessBoardPanel.tsx *)

(** [toUci] *)
Definition toUci (move : ChessMove) : string :=
  move.(mv_from) +:+ move.(mv_to) +:+ nullish move.(mv_promotion) ""%string.

(** [parseLastMoveSquares]; the argument is [string | undefined]. *)
Definition parseLastMoveSquares (uci : option string)
  : option (string * string) :=
  match uci with
  | None => None
  | Some text =>
    if bool_decide (text = ""%string) || (String.length text <? 4)%nat
    then None
    else Some (String.substring 0 2 text, String.substring 2 2 text)
  end.

(** *** components/GameArena.tsx: the move table *)

Record MoveRow := mkMoveRow {
  moveNumber : Z;
  rowWhite : option MoveRecord.t;
  rowBlack : option MoveRecord.t;
}.

(** The [for (let index = 0; index < moves.length; index += 2)] loop of
    [moveRows]; [fuel] bounds the number of iterations. *)
Fixpoint moveRowsLoop (fuel index : nat) (moves : list MoveRecord.t)
  : list MoveRow :=
  match fuel with
  | O => []
  | S fuel' =>
    if (index <? length moves)%nat then
      {| moveNumber := Z.of_nat index / 2 + 1;
         rowWhite := moves !! index;
         rowBlack := moves !! (index + 1)%nat |}
      :: moveRowsLoop fuel' (index + 2) moves
    else []
  end.

Definition moveRows (moves : list MoveRecord.t) : list MoveRow :=
  moveRowsLoop (length moves) 0 moves.

(** The moves that a row shows, White's first. *)
Definition rowMoves (row : MoveRow) : list MoveRecord.t :=
  option_list row.(rowWhite) ++ option_list row.(rowBlack).

(** ** More sample data *)

Module Sample2.

Definition game1 : SavedGame.t :=
  {| SavedGame.id := "game_1"; SavedGame.mode := friend;
     SavedGame.createdAt := 1000;
     SavedGame.whiteName := "Ann"; SavedGame.blackName := "Bob";
     SavedGame.resultWinner := Some white;
     SavedGame.resultReason := "Checkmate";
     SavedGame.timeControl := None;
     SavedGame.startFen := "start"; SavedGame.finalFen := "mate";
     SavedGame.pgn := ""; SavedGame.moves := [];
     SavedGame.chats := [] |}.

(** A codec that knows the empty list and the list of [game1]. *)
#[local] Instance json : Storage.JsonApi := {|
  Storage.JSON_parse := fun raw =>
    if String.eqb raw "[]" then Storage.ParsedArray []
    else if String.eqb raw "[game_1]" then Storage.ParsedArray [game1]
    else Storage.ParseError;
  Storage.JSON_stringify := fun games =>
    match games with
    | [] => "[]"%string
    | [g] => "[" +:+ SavedGame.id g +:+ "]"
    | _ => "[...]"%string
    end;
|}.

(** A full store: 201 games created at times 0 to 200, behind a codec
    that reads them from any text. *)
Definition gameAt (time : Z) : SavedGame.t :=
  {| SavedGame.id := "game"; SavedGame.mode := ai;
     SavedGame.createdAt := time;
     SavedGame.whiteName := "Ann"; SavedGame.blackName := "AI Lv2";
     SavedGame.resultWinner := Some draw;
     SavedGame.resultReason := "Stalemate";
     SavedGame.timeControl := None;
     SavedGame.startFen := "start"; SavedGame.finalFen := "stalemate";
     SavedGame.pgn := ""; SavedGame.moves := [];
     SavedGame.chats := [] |}.

#[local] Instance fullJson : Storage.JsonApi := {|
  Storage.JSON_parse := fun _ => Storage.ParsedArray (gameAt <$> seqZ 0 201);
  Storage.JSON_stringify := fun _ => "[...]"%string;
|}.

(** A [trim] that drops leading spaces only; enough to exercise the
    callers. *)
Fixpoint dropSpaces (s : string) : string :=
  match s with
  | String " "%char rest => dropSpaces rest
  | _ => s
  end.

#[local] Instance strings : StringApi := {| trim := dropSpaces |}.

Definition hello : ChatMessage.t :=
  {| ChatMessage.id := "chat_1"; ChatMessage.sender := "Ann";
     ChatMessage.text := "hello"; ChatMessage.timestamp := 10;
     ChatMessage.system := None; ChatMessage.side := Some W |}.

Definition e2e4 : MoveRecord.t :=
  {| MoveRecord.ply := 1; MoveRecord.side := W; MoveRecord.san := "e4";
     MoveRecord.uci := "e2e4"; MoveRecord.fenAfter := "after-e4" |}.

Definition guest : GuestState :=
  {| localSide := B; view := Sample.room |}.

End Sample2.

(** ** The clock model *)

Section Clock.
Import FriendRoomScreen.

Lemma clock_get_set_same c color v : clock_get (clock_set c color v) color = v.
Proof. by destruct color. Qed.

Lemma clock_get_set_other c color v :
  clock_get (clock_set c color v) (oppositeSide color)
  = clock_get c (oppositeSide color).
Proof. by destruct color. Qed.

(** A snapshot that is not being timed is returned as it is. *)
Lemma advanceClock_idle s now :
  status s <> playing \/ activeColor s = None \/ now - lastTickAt s <= 0 ->
  advanceClock s now = s.
Proof.
  intros Hidle. unfold advanceClock.
  destruct (status s) eqn:Hst; try done.
  destruct (activeColor s) as [color|] eqn:Hac; try done.
  destruct (Z.leb_spec (now - lastTickAt s) 0) as [Hle|Hgt]; first done.
  destruct Hidle as [Hne|[Hnone|Hle]]; [done | done | lia].
Qed.

(** The fields outside status, result, clocks, active colour and tick
    time are never written. *)
Lemma advanceClock_frame s now : clockFrame s (advanceClock s now).
Proof.
  unfold advanceClock, clockFrame.
  destruct (status s); try done.
  destruct (activeColor s); try done.
  destruct (_ <=? 0); first done.
  by destruct (_ <=? 0).
Qed.

(** C2: [advanceClock] returns the snapshot unchanged when it is not
    playing, has no active colour or no time has passed; otherwise it
    takes the elapsed time off the active clock, not below zero, and
    records [now]; when that leaves zero it ends the game for the
    other side with reason Flag. *)
Theorem advanceClock_spec (s : RoomSnapshot) (now : Z) :
  (status s <> playing \/ activeColor s = None \/ now - lastTickAt s <= 0 ->
   advanceClock s now = s) /\
  (forall color,
     status s = playing -> activeColor s = Some color ->
     0 < now - lastTickAt s ->
     let remaining := clock_get (clocks s) color - (now - lastTickAt s) in
     let s' := advanceClock s now in
     clock_get (clocks s') color = Z.max 0 remaining /\
     clock_get (clocks s') (oppositeSide color)
       = clock_get (clocks s) (oppositeSide color) /\
     lastTickAt s' = now /\
     clockFrame s s' /\
     (Z.max 0 remaining = 0 ->
      status s' = ended /\ activeColor s' = None /\
      resultWinner s' = Some (sideToLabel (oppositeSide color)) /\
      resultReason s' = "Flag"%string) /\
     (Z.max 0 remaining <> 0 ->
      status s' = playing /\ activeColor s' = Some color /\
      resultWinner s' = resultWinner s /\
      resultReason s' = resultReason s)).
Proof.
  split; first apply advanceClock_idle.
  intros color Hst Hac Hpos remaining s'.
  split_and!; try apply advanceClock_frame; subst s'; unfold advanceClock;
    rewrite Hst, Hac;
    (destruct (Z.leb_spec (now - lastTickAt s) 0) as [Hle|_]; first lia);
    fold remaining;
    destruct (Z.leb_spec remaining 0) as [Hrem|Hrem]; simpl;
    rewrite ?clock_get_set_same, ?clock_get_set_other; try done; lia.
Qed.

(** C7: advancing twice to the same instant is advancing once. *)
Theorem advanceClock_idempotent (s : RoomSnapshot) (now : Z) :
  advanceClock (advanceClock s now) now = advanceClock s now.
Proof.
  apply advanceClock_idle.
  unfold advanceClock.
  destruct (status s) eqn:Hst; try (left; congruence).
  destruct (activeColor s) as [color|] eqn:Hac; last by (right; left).
  destruct (Z.leb_spec (now - lastTickAt s) 0) as [Hle|Hgt].
  - by do 2 right.
  - destruct (_ <=? 0); simpl; [by left | right; right; lia].
Qed.

Lemma advanceClock_spec_witness :
  advanceClock Sample.finishedRoom 1000 = Sample.finishedRoom /\
  clock_get (clocks (advanceClock Sample.room 1000)) W
    = Z.max 0 (300000 - (1000 - 0)) /\
  status (advanceClock Sample.room 400000) = ended.
Proof.
  split_and!.
  - apply (advanceClock_spec Sample.finishedRoom 1000). left. discriminate.
  - apply (proj2 (advanceClock_spec Sample.room 1000) W);
      [reflexivity | reflexivity | simpl; lia].
  - apply (proj2 (advanceClock_spec Sample.room 400000) W);
      [reflexivity | reflexivity | simpl; lia | reflexivity].
Defined.

End Clock.

(** ** The local clock against the networked clock *)

Section LocalVariant.

(** C8: from states that agree on status, clocks, active colour, tick
    time and result, the local [advanceClock] and the room's
    [advanceClock] reach states that agree on them again. *)
Theorem advanceClock_local_agrees (st : AiGameScreen.LiveState)
    (s : FriendRoomScreen.RoomSnapshot) (now : Z) :
  agree st s ->
  agree (AiGameScreen.advanceClock st now)
        (FriendRoomScreen.advanceClock s now).
Proof.
  destruct st as [? ? ast ? ? ? ? ? ? ? aac ?], s as [? ? rst ? ? ? ? ? ? ? ? ? ? rac ?].
  unfold agree; simpl. intros (Hst & -> & -> & -> & -> & ->).
  unfold AiGameScreen.advanceClock, FriendRoomScreen.advanceClock; simpl.
  destruct ast, rst; try done.
  destruct rac as [color|]; last done.
  destruct (_ <=? 0); first done.
  by destruct (_ <=? 0).
Qed.

Lemma advanceClock_local_agrees_witness :
  agree Sample.liveGame Sample.room /\
  agree (AiGameScreen.advanceClock Sample.liveGame 400000)
        (FriendRoomScreen.advanceClock Sample.room 400000).
Proof.
  assert (Hagree : agree Sample.liveGame Sample.room)
    by (unfold agree; simpl; tauto).
  split; [exact Hagree |].
  exact (advanceClock_local_agrees Sample.liveGame Sample.room 400000 Hagree).
Defined.

End LocalVariant.

(** ** The outcome resolver *)

Section Resolver.
Context `{ChessApi}.
Import FriendRoomScreen.

(** The winner that the code names after a checkmate is the side that
    is not to move, that is, the side that just moved. *)
Lemma checkmate_winner_just_moved (game : Chess) :
  match chess_turn game with W => black | B => white end
  = sideToLabel (oppositeSide (chess_turn game)).
Proof. by destruct (chess_turn game). Qed.

(** C6: on an oracle whose [isGameOver] covers its four terminal tests,
    the resolver answers by priority: checkmate for the side that just
    moved, then stalemate, threefold repetition, insufficient material,
    then a plain draw for any other finished position; it answers
    nothing exactly when the position is not finished. *)
Theorem getOutcomeFromChess_spec (game : Chess) :
  (isCheckmate game || isStalemate game || isThreefoldRepetition game
   || isInsufficientMaterial game = true -> isGameOver game = true) ->
  (isCheckmate game = true ->
   getOutcomeFromChess game
   = Some {| winner := Some (sideToLabel (oppositeSide (chess_turn game)));
             reason := "Checkmate" |}) /\
  (isCheckmate game = false -> isStalemate game = true ->
   getOutcomeFromChess game
   = Some {| winner := Some draw; reason := "Stalemate" |}) /\
  (isCheckmate game = false -> isStalemate game = false ->
   isThreefoldRepetition game = true ->
   getOutcomeFromChess game
   = Some {| winner := Some draw; reason := "Threefold repetition" |}) /\
  (isCheckmate game = false -> isStalemate game = false ->
   isThreefoldRepetition game = false -> isInsufficientMaterial game = true ->
   getOutcomeFromChess game
   = Some {| winner := Some draw; reason := "Insufficient material" |}) /\
  (isCheckmate game = false -> isStalemate game = false ->
   isThreefoldRepetition game = false -> isInsufficientMaterial game = false ->
   isGameOver game = true ->
   getOutcomeFromChess game
   = Some {| winner := Some draw; reason := "Draw" |}) /\
  (getOutcomeFromChess game = None <-> isGameOver game = false).
Proof.
  intros Hcover. unfold getOutcomeFromChess.
  rewrite checkmate_winner_just_moved.
  destruct (isGameOver game) eqn:Hover; simpl.
  - split_and!; try (intros; repeat case_match; congruence).
    split; intros; repeat case_match; congruence.
  - destruct (isCheckmate game), (isStalemate game),
      (isThreefoldRepetition game), (isInsufficientMaterial game);
      simpl in Hcover; try (specialize (Hcover eq_refl); discriminate);
      split_and!; try done.
Qed.

End Resolver.

Lemma getOutcomeFromChess_spec_witness :
  @FriendRoomScreen.getOutcomeFromChess Sample.oracle "mate"%string
  = Some {| winner := Some black; reason := "Checkmate" |} /\
  @FriendRoomScreen.getOutcomeFromChess Sample.oracle "fifty-moves"%string
  = Some {| winner := Some draw; reason := "Draw" |} /\
  @FriendRoomScreen.getOutcomeFromChess Sample.oracle "after-e4"%string = None.
Proof.
  split_and!.
  - apply (@getOutcomeFromChess_spec Sample.oracle "mate"%string);
      reflexivity.
  - apply (@getOutcomeFromChess_spec Sample.oracle "fifty-moves"%string);
      reflexivity.
  - apply (@getOutcomeFromChess_spec Sample.oracle "after-e4"%string);
      [discriminate | reflexivity].
Defined.

(** ** The room state machine: moves *)

Section Moves.
Context `{ChessApi}.
Import FriendRoomScreen.

(** C9: whether the move is taken or refused, the names of the two
    players and the time control of the room are those of the input
    snapshot. *)
Theorem hostApplyMove_keeps_room_identity (uci : string) (moverSide : Side)
    (now now' : Z) (previous : RoomSnapshot) :
  let s' := (hostApplyMove uci moverSide now now' previous).2 in
  whiteName s' = whiteName previous /\
  blackName s' = blackName previous /\
  initialMs s' = initialMs previous /\
  incrementMs s' = incrementMs previous.
Proof.
  destruct (advanceClock_frame previous now)
    as (_ & _ & _ & _ & Hw & Hb & _ & Hi & Hinc).
  unfold hostApplyMove; simpl.
  repeat case_match; simpl; by rewrite ?Hw, ?Hb, ?Hi, ?Hinc.
Qed.

(** C3, amended: when the snapshot is still playing once its clock is
    advanced to the time of the move, the mover is the side to move and
    the oracle takes the move, the updater of [hostApplyMove] appends
    one record, takes position, turn and last move from the oracle, clears
    the draw offer, credits the increment to the mover's advanced clock
    only, refreshes the tick time, and either ends the game with the
    resolver's outcome or keeps playing with the new side to move
    active. *)
Theorem hostApplyMove_accepted (uci : string) (moverSide : Side)
    (now now' : Z) (previous : RoomSnapshot) (move : ChessMove) (chess : Chess) :
  let current := advanceClock previous now in
  status current = playing ->
  turn previous = moverSide ->
  applyUci (chess_load (fen previous)) uci = Some (move, chess) ->
  let s' := (hostApplyMove uci moverSide now now' previous).2 in
  moves s' = moves previous ++
    [ {| MoveRecord.ply := Z.of_nat (length (moves previous)) + 1;
         MoveRecord.side := moverSide;
         MoveRecord.san := mv_san move;
         MoveRecord.uci :=
           mv_from move +:+ mv_to move +:+ nullish (mv_promotion move) ""%string;
         MoveRecord.fenAfter := chess_fen chess |} ] /\
  length (moves s') = S (length (moves previous)) /\
  fen s' = chess_fen chess /\
  turn s' = chess_turn chess /\
  lastMoveUci s'
  = Some (mv_from move +:+ mv_to move +:+ nullish (mv_promotion move) ""%string) /\
  drawOfferBy s' = None /\
  clock_get (clocks s') moverSide
  = clock_get (clocks current) moverSide + incrementMs previous /\
  clock_get (clocks s') (oppositeSide moverSide)
  = clock_get (clocks current) (oppositeSide moverSide) /\
  lastTickAt s' = now' /\
  match getOutcomeFromChess chess with
  | Some outcome =>
    status s' = ended /\ activeColor s' = None /\
    resultWinner s' = winner outcome /\ resultReason s' = reason outcome
  | None =>
    status s' = playing /\ activeColor s' = Some (turn s') /\
    resultWinner s' = None /\ resultReason s' = ""%string
  end.
Proof.
  intros current Hplaying Hturn Hlegal.
  destruct (advanceClock_frame previous now)
    as (Hfen & Htn & Hmv & _ & _ & _ & _ & _ & Hinc).
  fold current in Hfen, Htn, Hmv, Hinc.
  unfold hostApplyMove. fold current.
  rewrite Hplaying, Hfen, Htn, Hlegal.
  rewrite !bool_decide_eq_true_2 by done. simpl.
  unfold nextMoveRecord. rewrite Hmv, Hinc. simpl.
  rewrite clock_get_set_same, clock_get_set_other, length_app. simpl.
  split_and!; try done; first lia.
  by destruct (getOutcomeFromChess chess).
Qed.

(** A move that fails the status test or the turn test is refused
    before the oracle is asked, and the clock-advanced snapshot is what
    remains. *)
Lemma hostApplyMove_refused uci moverSide now now' previous :
  let current := advanceClock previous now in
  status current <> playing \/ turn current <> moverSide ->
  hostApplyMove uci moverSide now now' previous = (false, current).
Proof.
  intros current Hwhy. unfold hostApplyMove. cbv zeta. fold current.
  destruct Hwhy as [Hst | Htn].
  - by rewrite bool_decide_eq_false_2.
  - case_bool_decide; simpl; [| done].
    by rewrite bool_decide_eq_false_2.
Qed.

(** A snapshot that is not playing is handed back as it is. *)
Lemma hostApplyMove_not_playing uci moverSide now now' previous :
  status previous <> playing ->
  hostApplyMove uci moverSide now now' previous = (false, previous).
Proof.
  intros Hidle.
  assert (Hsame : advanceClock previous now = previous)
    by (apply advanceClock_idle; by left).
  rewrite hostApplyMove_refused; rewrite Hsame; auto.
Qed.

(** C4, amended: a move refused as a protocol violation (the game is
    not playing once the clock is advanced, or the mover is not the
    side to move) leaves behind exactly the clock-advanced snapshot, so
    nothing but the clock reconciliation is written; a snapshot that
    was not playing comes back untouched.  A move that the oracle
    refuses is left out. *)
Theorem hostApplyMove_rejected (uci : string) (moverSide : Side)
    (now now' : Z) (previous : RoomSnapshot) :
  let current := advanceClock previous now in
  (status current <> playing \/ turn current <> moverSide ->
   hostApplyMove uci moverSide now now' previous = (false, current)) /\
  (status previous <> playing ->
   hostApplyMove uci moverSide now now' previous = (false, previous)).
Proof.
  intros current. split.
  - apply hostApplyMove_refused.
  - apply hostApplyMove_not_playing.
Qed.

End Moves.

Lemma hostApplyMove_accepted_witness :
  let s' := (@FriendRoomScreen.hostApplyMove Sample.oracle "e2e4" W 0 0
               Sample.room).2 in
  FriendRoomScreen.status (FriendRoomScreen.advanceClock Sample.room 0)
  = FriendRoomScreen.playing /\
  FriendRoomScreen.turn s' = B /\
  clock_get (FriendRoomScreen.clocks s') W = 300000 + 3000 /\
  clock_get (FriendRoomScreen.clocks s') B = 300000.
Proof.
  pose proof (@hostApplyMove_accepted Sample.oracle "e2e4" W 0 0 Sample.room
                {| mv_from := "e2"; mv_to := "e4"; mv_san := "e4";
                   mv_promotion := None |} "after-e4"%string
                eq_refl eq_refl eq_refl)
    as (_ & _ & _ & Hturn & _ & _ & Hmover & Hother & _).
  split_and!; [reflexivity | exact Hturn | exact Hmover | exact Hother].
Defined.

Lemma hostApplyMove_rejected_witness :
  @FriendRoomScreen.hostApplyMove Sample.oracle "e7e5" B 1000 1000 Sample.room
  = (false, FriendRoomScreen.advanceClock Sample.room 1000) /\
  @FriendRoomScreen.hostApplyMove Sample.oracle "e2e4" B 1000 1000
    Sample.finishedRoom
  = (false, Sample.finishedRoom).
Proof.
  split.
  - apply (@hostApplyMove_rejected Sample.oracle "e7e5" B 1000 1000 Sample.room).
    right. discriminate.
  - apply (@hostApplyMove_rejected Sample.oracle "e2e4" B 1000 1000
             Sample.finishedRoom).
    discriminate.
Defined.

(** C3 as first stated fails: a playing snapshot, the side to move and
    a move the oracle takes, yet White's five minutes ran out before the
    move arrived; the move is refused and the game ends on time. *)
Lemma hostApplyMove_after_flag_counterexample :
  let result := @FriendRoomScreen.hostApplyMove Sample.oracle "e2e4" W
                  400000 400000 Sample.room in
  FriendRoomScreen.status Sample.room = FriendRoomScreen.playing /\
  FriendRoomScreen.turn Sample.room = W /\
  @applyUci Sample.oracle
    (@chess_load Sample.oracle (FriendRoomScreen.fen Sample.room)) "e2e4"
  = Some ({| mv_from := "e2"; mv_to := "e4"; mv_san := "e4";
             mv_promotion := None |}, "after-e4"%string) /\
  result.1 = false /\
  FriendRoomScreen.moves result.2 = FriendRoomScreen.moves Sample.room /\
  FriendRoomScreen.fen result.2 = FriendRoomScreen.fen Sample.room /\
  FriendRoomScreen.turn result.2 = W /\
  FriendRoomScreen.lastMoveUci result.2 = None /\
  FriendRoomScreen.status result.2 = FriendRoomScreen.ended /\
  FriendRoomScreen.resultWinner result.2 = Some black /\
  FriendRoomScreen.resultReason result.2 = "Flag"%string.
Proof. repeat split. Qed.

(** C4 as first stated fails: Black moves out of turn one second after
    the last tick; the move is refused, yet White's clock has lost that
    second and the tick time has moved. *)
Lemma hostApplyMove_rejected_counterexample :
  let result := @FriendRoomScreen.hostApplyMove Sample.oracle "e7e5" B
                  1000 1000 Sample.room in
  FriendRoomScreen.turn Sample.room <> B /\
  result.1 = false /\
  result.2 <> Sample.room /\
  FriendRoomScreen.clocks Sample.room = {| w := 300000; b := 300000 |} /\
  FriendRoomScreen.clocks result.2 = {| w := 299000; b := 300000 |} /\
  FriendRoomScreen.lastTickAt Sample.room = 0 /\
  FriendRoomScreen.lastTickAt result.2 = 1000.
Proof. repeat split; discriminate. Qed.


(** ** The room state machine: what happens after the end, and draws *)

Section Events.
Context `{ChessApi}.
Import FriendRoomScreen.

(** Events whose handler looks at the status leave a finished game as
    it is. *)
Lemma hostStep_ended_guarded env now now' event s :
  status s = ended -> statusGuarded event = true ->
  hostStep env now now' event s = s.
Proof.
  intros Hended Hguard.
  assert (Hnp : status s <> playing) by (rewrite Hended; discriminate).
  destruct event as [[]| | | | | | | |]; simpl in *; try done.
  - by rewrite hostApplyMove_not_playing.
  - unfold hostOnClose. by rewrite bool_decide_eq_false_2.
  - apply advanceClock_idle. by left.
  - unfold onMove. by rewrite bool_decide_eq_false_2.
  - unfold offerDrawDisabled. by rewrite bool_decide_eq_false_2.
  - unfold resignDisabled. by rewrite bool_decide_eq_false_2.
Qed.

(** C1: a finished game is not frozen.  On the room that Black won by
    checkmate, a resign message from the guest hands the win to White,
    a join message puts the status back to playing, an accepted draw
    response turns the result into a draw and a draw-offer message
    writes the pending offer.  On a room that the clock ended while the
    guest's draw offer was pending, the offer is still there and the
    host's accept action turns the loss on time into a draw. *)
Theorem ended_snapshot_rewritten :
  let step event := hostStep Sample.host 1000 1000 event Sample.finishedRoom in
  let flagged := advanceClock (withDrawOffer (Some B) Sample.room) 400000 in
  status Sample.finishedRoom = ended /\
  resultWinner Sample.finishedRoom = Some black /\
  resultReason Sample.finishedRoom = "Checkmate"%string /\
  resultWinner (step (Data MsgResign)) = Some white /\
  resultReason (step (Data MsgResign)) = "Resign"%string /\
  status (step (Data (MsgJoin "Bob"))) = playing /\
  activeColor (step (Data (MsgJoin "Bob"))) = Some W /\
  resultWinner (step (Data (MsgDrawResponse true))) = Some draw /\
  resultReason (step (Data (MsgDrawResponse true))) = "Agreement"%string /\
  drawOfferBy (step (Data MsgDrawOffer)) = Some B /\
  step (Data MsgResign) <> Sample.finishedRoom /\
  step (Data (MsgJoin "Bob")) <> Sample.finishedRoom /\
  status flagged = ended /\
  resultWinner flagged = Some black /\
  resultReason flagged = "Flag"%string /\
  drawOfferBy flagged = Some B /\
  resultWinner (hostStep Sample.host 400500 400500 LocalAcceptDraw flagged)
  = Some draw /\
  resultReason (hostStep Sample.host 400500 400500 LocalAcceptDraw flagged)
  = "Agreement"%string.
Proof. repeat split; discriminate. Qed.

(** An accepted response, whether the guest's message or the host's
    own accept with the guest's offer on the table, ends the game as a
    draw by agreement. *)
Lemma draw_response_accept env now now' s :
  hostStep env now now' (Data (MsgDrawResponse true)) s
  = finalizeGame (Some draw) "Agreement" s /\
  (drawOfferFromOpponent (hostSide env) s = true ->
   hostStep env now now' LocalAcceptDraw s
   = finalizeGame (Some draw) "Agreement" s).
Proof. split; [done |]. simpl. by intros ->. Qed.

(** A declined response clears the offer and writes nothing else. *)
Lemma draw_response_decline env now now' s :
  hostStep env now now' (Data (MsgDrawResponse false)) s = withDrawOffer None s /\
  (drawOfferFromOpponent (hostSide env) s = true ->
   hostStep env now now' LocalDeclineDraw s = withDrawOffer None s) /\
  (drawOfferBy s = None -> withDrawOffer None s = s).
Proof.
  split_and!; try done.
  - simpl. by intros ->.
  - destruct s; simpl. by intros ->.
Qed.

(** The host's own accept and decline cannot happen without an offer:
    the buttons are not rendered. *)
Lemma local_draw_response_gated env now now' s :
  drawOfferBy s = None ->
  hostStep env now now' LocalAcceptDraw s = s /\
  hostStep env now now' LocalDeclineDraw s = s.
Proof.
  intros Hnone. simpl. unfold drawOfferFromOpponent. by rewrite Hnone.
Qed.

(** C5: the draw-response message is not gated on a pending offer.  On
    the sample room, which is playing and has no offer pending, an
    accepted draw response from the guest ends the game as a draw by
    agreement. *)
Theorem draw_response_without_offer :
  let s' := hostStep Sample.host 1000 1000 (Data (MsgDrawResponse true))
              Sample.room in
  drawOfferBy Sample.room = None /\
  status Sample.room = playing /\
  status s' = ended /\
  resultWinner s' = Some draw /\
  resultReason s' = "Agreement"%string /\
  activeColor s' = None /\
  s' <> Sample.room.
Proof. repeat split; discriminate. Qed.

End Events.

(** ** Persistence of finished games *)

Section Persistence.
Context `{Storage.JsonApi}.
Import Storage.

Lemma insertGame_perm game sorted : insertGame game sorted ≡ₚ game :: sorted.
Proof.
  induction sorted as [|head rest IH]; simpl; first done.
  case_decide; first done.
  rewrite IH. apply Permutation_swap.
Qed.

Lemma insertGame_sorted game sorted :
  Sorted newerFirst sorted -> Sorted newerFirst (insertGame game sorted).
Proof.
  induction sorted as [|head rest IH]; intros Hsorted; simpl.
  - by repeat constructor.
  - case_decide as Hfront.
    + constructor; [done | by constructor].
    + apply Sorted_inv in Hsorted as [Hrest Hhead].
      constructor; first by apply IH.
      destruct rest as [|next rest']; simpl.
      * constructor. unfold newerFirst in *. lia.
      * case_decide; constructor.
        -- unfold newerFirst in *. lia.
        -- by inversion Hhead.
Qed.

Lemma sortGames_sorted games : Sorted newerFirst (sortGames games).
Proof.
  induction games as [|game rest IH]; simpl; first constructor.
  by apply insertGame_sorted.
Qed.

Lemma sortGames_perm games : sortGames games ≡ₚ games.
Proof.
  induction games as [|game rest IH]; simpl; first done.
  by rewrite insertGame_perm, IH.
Qed.

Lemma loadGames_sorted store : Sorted newerFirst (loadGames store).
Proof.
  unfold loadGames. repeat case_match; auto using sortGames_sorted.
Qed.

Lemma loadGames_persisted store : loadGames store ≡ₚ persistedGames store.
Proof.
  unfold loadGames, persistedGames.
  repeat case_match; auto using sortGames_perm.
Qed.

(** C10: [saveGame] writes the list it returns, which starts with the
    saved game and has at most 200 entries; [loadGames] gives the
    persisted games newest first, and gives the empty list when nothing
    is stored or the text does not parse. *)
Theorem storage_spec (game : SavedGame.t) (store : Store) :
  (let '(store', next) := saveGame game store in
   store' = Some (JSON_stringify next) /\
   head next = Some game /\
   (length next <= 200)%nat /\
   next = take 200 (game :: loadGames store)) /\
  Sorted newerFirst (loadGames store) /\
  loadGames store ≡ₚ persistedGames store /\
  loadGames None = [] /\
  (forall raw, JSON_parse raw = ParseError -> loadGames (Some raw) = []).
Proof.
  split_and!; try done.
  - unfold saveGame. split_and!; try done.
    rewrite length_take. lia.
  - apply loadGames_sorted.
  - apply loadGames_persisted.
  - intros raw Hbad. unfold loadGames. rewrite Hbad. by case_bool_decide.
Qed.

(** When the codec round-trips, what [saveGame] leaves in the store is
    the list it returned. *)
Lemma saveGame_persisted game store :
  (forall games, JSON_parse (JSON_stringify games) = ParsedArray games) ->
  (forall games, JSON_stringify games <> ""%string) ->
  persistedGames (saveGame game store).1 = (saveGame game store).2 /\
  head (persistedGames (saveGame game store).1) = Some game.
Proof.
  intros Hround Hnonempty. unfold saveGame, persistedGames; simpl.
  rewrite bool_decide_eq_false_2 by apply Hnonempty.
  by rewrite Hround.
Qed.

End Persistence.

Lemma storage_spec_witness :
  @Storage.loadGames Sample.json (Some "not json"%string) = [].
Proof.
  pose proof (@storage_spec Sample.json
                {| SavedGame.id := "game_1"; SavedGame.mode := friend;
                   SavedGame.createdAt := 1000;
                   SavedGame.whiteName := "Ann"; SavedGame.blackName := "Bob";
                   SavedGame.resultWinner := Some white;
                   SavedGame.resultReason := "Checkmate";
                   SavedGame.timeControl := None;
                   SavedGame.startFen := "start"; SavedGame.finalFen := "mate";
                   SavedGame.pgn := ""; SavedGame.moves := [];
                   SavedGame.chats := [] |} None)
    as (_ & _ & _ & _ & Hbad).
  apply Hbad. reflexivity.
Defined.

(** ** The chat log *)

Section ChatLog.

Lemma hasId_elem_of messages (message : ChatMessage.t) :
  existsb (fun entry =>
             String.eqb (ChatMessage.id entry) (ChatMessage.id message))
    messages = true
  <-> ChatMessage.id message ∈ ChatMessage.id <$> messages.
Proof.
  rewrite existsb_exists, list_elem_of_fmap. split.
  - intros (entry & Hin & Heq). exists entry.
    apply String.eqb_eq in Heq. split; [done | by apply list_elem_of_In].
  - intros (entry & Heq & Hin). exists entry.
    split; [by apply list_elem_of_In | by apply String.eqb_eq].
Qed.

(** X1: a log whose message ids are pairwise different stays so when a
    message is added through [appendUniqueMessage]. *)
Theorem appendUniqueMessage_NoDup (messages : list ChatMessage.t)
    (message : ChatMessage.t) :
  NoDup (ChatMessage.id <$> messages) ->
  NoDup (ChatMessage.id <$> appendUniqueMessage messages message).
Proof.
  intros Hnodup. unfold appendUniqueMessage.
  destruct (existsb _ messages) eqn:Hhas; first done.
  rewrite fmap_app. apply NoDup_app. split_and!; [done | | apply NoDup_singleton].
  intros id Hin Hnew. apply list_elem_of_singleton in Hnew. subst id.
  apply hasId_elem_of in Hin. congruence.
Qed.

(** X2: a message whose id is already in the log is dropped; so
    delivering a message twice, or another message under the same id,
    is delivering it once. *)
Theorem appendUniqueMessage_absorbs (messages : list ChatMessage.t)
    (message again : ChatMessage.t) :
  ChatMessage.id again = ChatMessage.id message ->
  appendUniqueMessage (appendUniqueMessage messages message) again
  = appendUniqueMessage messages message.
Proof.
  intros Hid.
  assert (Hin : ChatMessage.id again
                ∈ ChatMessage.id <$> appendUniqueMessage messages message).
  { rewrite Hid. unfold appendUniqueMessage.
    destruct (existsb _ messages) eqn:Hhas.
    - by apply hasId_elem_of.
    - rewrite fmap_app, elem_of_app. right. by apply list_elem_of_singleton. }
  apply hasId_elem_of in Hin.
  unfold appendUniqueMessage at 1. by rewrite Hin.
Qed.

(** X3: [appendUniqueMessage] only ever extends the log at its end, by
    at most one message, and afterwards the id of the message is in the
    log. *)
Theorem appendUniqueMessage_extends (messages : list ChatMessage.t)
    (message : ChatMessage.t) :
  messages `prefix_of` appendUniqueMessage messages message /\
  (length (appendUniqueMessage messages message) <= S (length messages))%nat /\
  ChatMessage.id message
  ∈ ChatMessage.id <$> appendUniqueMessage messages message.
Proof.
  unfold appendUniqueMessage.
  destruct (existsb _ messages) eqn:Hhas.
  - split_and!; [done | lia | by apply hasId_elem_of].
  - split_and!.
    + by apply prefix_app_r.
    + rewrite length_app. simpl. lia.
    + rewrite fmap_app, elem_of_app. right. by apply list_elem_of_singleton.
Qed.

End ChatLog.

Lemma appendUniqueMessage_NoDup_witness :
  NoDup (ChatMessage.id <$> appendUniqueMessage [Sample2.hello] Sample2.hello).
Proof.
  apply (appendUniqueMessage_NoDup [Sample2.hello] Sample2.hello).
  apply NoDup_singleton.
Defined.

Lemma appendUniqueMessage_absorbs_witness :
  appendUniqueMessage (appendUniqueMessage [] Sample2.hello) Sample2.hello
  = appendUniqueMessage [] Sample2.hello.
Proof.
  apply (appendUniqueMessage_absorbs [] Sample2.hello Sample2.hello).
  reflexivity.
Defined.

(** ** The room over whole runs *)

Section RoomRuns.
Context `{ChessApi}.
Import FriendRoomScreen.

Lemma hostApplyMove_moves uci moverSide now now' s :
  moves (hostApplyMove uci moverSide now now' s).2 = moves s \/
  exists record, moves (hostApplyMove uci moverSide now now' s).2
                 = moves s ++ [record].
Proof.
  destruct (advanceClock_frame s now) as (_ & _ & Hmv & _).
  unfold hostApplyMove. repeat case_match; simpl; rewrite ?Hmv; eauto.
Qed.

Lemma hostStep_moves env now now' event s :
  moves (hostStep env now now' event s) = moves s \/
  exists record, moves (hostStep env now now' event s) = moves s ++ [record].
Proof.
  destruct event as [[]| | | | | | | |]; simpl;
    unfold hostOnClose, onMove, onOfferDraw, onResign;
    repeat case_match; simpl;
    try apply hostApplyMove_moves; try (by left).
  left. apply advanceClock_frame.
Qed.

(** X4: the move history is append-only.  No event takes a record away
    or reorders the history, one event adds at most one record, and
    after any run the history at the start is a prefix of the history
    at the end. *)
Theorem hostRun_moves_append_only (env : HostEnv)
    (events : list (Z * Z * HostEvent)) (s : RoomSnapshot) :
  moves s `prefix_of` moves (hostRun env events s) /\
  (length (moves (hostRun env events s))
   <= length (moves s) + length events)%nat.
Proof.
  revert s. induction events as [| [[now now'] event] rest IH]; intros s; simpl.
  - split; [done | lia].
  - destruct (IH (hostStep env now now' event s)) as [Hpre Hlen].
    destruct (hostStep_moves env now now' event s) as [Heq | [record Heq]];
      rewrite Heq in Hpre, Hlen.
    + split; [done | lia].
    + split; [by eapply prefix_app_l |].
      rewrite length_app in Hlen. simpl in Hlen. lia.
Qed.

Lemma hostStep_timeControl env now now' event s :
  initialMs (hostStep env now now' event s) = initialMs s /\
  incrementMs (hostStep env now now' event s) = incrementMs s.
Proof.
  pose proof (advanceClock_frame s now) as (_ & _ & _ & _ & _ & _ & _ & Hi & Hinc).
  destruct event as [[]| | | | | | | |]; simpl;
    unfold hostOnClose, onMove, onOfferDraw, onResign, hostApplyMove;
    repeat case_match; simpl; by rewrite ?Hi, ?Hinc.
Qed.

Lemma hostRun_timeControl env events s :
  initialMs (hostRun env events s) = initialMs s /\
  incrementMs (hostRun env events s) = incrementMs s.
Proof.
  revert s. induction events as [| [[now now'] event] rest IH]; intros s; simpl.
  - done.
  - destruct (IH (hostStep env now now' event s)) as [-> ->].
    apply hostStep_timeControl.
Qed.

Lemma jsRoundDiv_multiple k d : 0 < d -> jsRoundDiv (k * d) d = k.
Proof.
  intros Hd. unfold jsRoundDiv.
  replace (2 * (k * d) + d) with (d + k * (2 * d)) by lia.
  rewrite Z.div_add by lia. rewrite Z.div_small by lia. lia.
Qed.

(** X5: the time control written into the saved record is the one the
    room was created with.  For a host room created from the setup form
    with any whole numbers of minutes and of increment seconds, after
    any run of events, [createSavedRecord] stores
    [Math.max(1, minutes)] and [Math.max(0, increment)]. *)
Theorem createSavedRecord_timeControl (hostName roomCode : string)
    (preferredColor : ColorPreference) (minutes increment : Z)
    (side : Side) (startFen : string) (now : Z) (env : HostEnv)
    (events : list (Z * Z * HostEvent))
    (id : string) (createdAt : Z) (pgn : string) (chats : list ChatMessage.t) :
  let hostConfig :=
    {| HostRoomConfig.hostName := hostName;
       HostRoomConfig.roomCode := roomCode;
       HostRoomConfig.preferredColor := preferredColor;
       HostRoomConfig.timeControl := setupTimeControl minutes increment |} in
  let final :=
    hostRun env events
      (initialSnapshot true (Some hostConfig) side startFen now) in
  SavedGame.timeControl
    (createSavedRecord id createdAt startFen pgn final chats)
  = Some {| TimeControl.initialMinutes := Z.max 1 minutes;
            TimeControl.incrementSeconds := Z.max 0 increment |}.
Proof.
  intros hostConfig final. unfold createSavedRecord. simpl.
  destruct (hostRun_timeControl env events
              (initialSnapshot true (Some hostConfig) side startFen now))
    as [Hi Hinc].
  fold final in Hi, Hinc. rewrite Hi, Hinc. simpl.
  replace (Z.max 1 minutes * 60 * 1000) with (Z.max 1 minutes * 60000) by lia.
  rewrite !jsRoundDiv_multiple by lia.
  f_equal. f_equal. lia.
Qed.

End RoomRuns.

(** ** Clocks and the active colour over whole runs *)

Section RoomInvariants.
Context `{ChessApi}.
Import FriendRoomScreen.

Lemma clock_set_nonneg c color v :
  0 <= w c -> 0 <= b c -> 0 <= v ->
  0 <= w (clock_set c color v) /\ 0 <= b (clock_set c color v).
Proof. by destruct color. Qed.

Lemma advanceClock_nonneg s now :
  0 <= w (clocks s) -> 0 <= b (clocks s) ->
  0 <= w (clocks (advanceClock s now)) /\ 0 <= b (clocks (advanceClock s now)).
Proof.
  intros Hw Hb. unfold advanceClock.
  repeat case_match; simpl; try done; apply clock_set_nonneg; lia.
Qed.

Lemma clock_get_nonneg c color : 0 <= w c -> 0 <= b c -> 0 <= clock_get c color.
Proof. by destruct color. Qed.

Lemma hostStep_clocks_nonneg env now now' event s :
  0 <= w (clocks s) -> 0 <= b (clocks s) -> 0 <= incrementMs s ->
  0 <= w (clocks (hostStep env now now' event s)) /\
  0 <= b (clocks (hostStep env now now' event s)).
Proof.
  intros Hw Hb Hinc.
  destruct (advanceClock_nonneg s now Hw Hb) as [Hw' Hb'].
  pose proof (advanceClock_frame s now) as (_ & _ & _ & _ & _ & _ & _ & _ & Hinc').
  destruct event as [[]| | | | | | | |]; simpl;
    unfold hostOnClose, onMove, onOfferDraw, onResign, hostApplyMove;
    repeat case_match; simpl; try done;
    apply clock_set_nonneg; try done;
    rewrite Hinc';
    match goal with
    | |- context [clock_get ?c ?side] =>
      pose proof (clock_get_nonneg c side Hw' Hb')
    end; lia.
Qed.

(** X6: no clock ever goes below zero.  From a snapshot whose two
    clocks and whose increment are not negative, every run of events
    ends in a snapshot whose two clocks are not negative. *)
Theorem hostRun_clocks_nonneg (env : HostEnv)
    (events : list (Z * Z * HostEvent)) (s : RoomSnapshot) :
  0 <= w (clocks s) -> 0 <= b (clocks s) -> 0 <= incrementMs s ->
  0 <= w (clocks (hostRun env events s)) /\
  0 <= b (clocks (hostRun env events s)).
Proof.
  revert s. induction events as [| [[now now'] event] rest IH];
    intros s Hw Hb Hinc; simpl; first done.
  destruct (hostStep_clocks_nonneg env now now' event s Hw Hb Hinc).
  apply IH; try done.
  by rewrite (proj2 (hostStep_timeControl env now now' event s)).
Qed.

(** X7: a tick only takes time away.  Whatever [now] is, a clock that
    is not negative is not larger after [advanceClock] than before, and
    the clock of the side that is not active is not touched. *)
Theorem advanceClock_only_runs_down (s : RoomSnapshot) (now : Z) (side : Side) :
  (0 <= clock_get (clocks s) side ->
   clock_get (clocks (advanceClock s now)) side <= clock_get (clocks s) side) /\
  (activeColor s <> Some side ->
   clock_get (clocks (advanceClock s now)) side = clock_get (clocks s) side).
Proof.
  destruct s as [? ? st ? ? ? ? ? ? ? [cw cb] ? ? ac last].
  unfold advanceClock; simpl.
  destruct st; try (split; intros; reflexivity).
  destruct ac as [color|]; last (split; intros; reflexivity).
  destruct (Z.leb_spec (now - last) 0) as [Hle|Hgt];
    first (split; intros; reflexivity).
  split.
  - intros Hpos.
    destruct (Z.leb_spec (clock_get {| w := cw; b := cb |} color - (now - last)) 0);
      destruct color, side; simpl in *; lia.
  - intros Hother.
    destruct (Z.leb_spec (clock_get {| w := cw; b := cb |} color - (now - last)) 0);
      destruct color, side; simpl in *; congruence.
Qed.

(** X8: how often the clock is ticked does not matter.  Advancing to
    [t1] and then to a later [t2] gives the clocks, status, result and
    active colour of advancing to [t2] at once; the two snapshots are
    equal but for [lastTickAt], and equal outright when the game is
    still playing at [t1]. *)
Theorem advanceClock_tick_granularity (s : RoomSnapshot) (t1 t2 : Z) :
  t1 <= t2 ->
  let twice := advanceClock (advanceClock s t1) t2 in
  let once := advanceClock s t2 in
  clocks twice = clocks once /\
  status twice = status once /\
  activeColor twice = activeColor once /\
  resultWinner twice = resultWinner once /\
  resultReason twice = resultReason once /\
  clockFrame once twice /\
  (status (advanceClock s t1) = playing -> twice = once).
Proof.
  intros Hle twice once. subst twice once.
  destruct s as [? ? st ? ? ? ? ? ? ? [cw cb] ? ? ac last].
  unfold advanceClock, clockFrame; cbn.
  destruct st; try done.
  destruct ac as [[|]|]; cbn; try done.
  all: repeat (match goal with
               | |- context [?a <=? ?b] => destruct (Z.leb_spec a b)
               end; cbn); try lia.
  all: split_and!; try done; try (f_equal; lia);
    try (intros _; do 2 f_equal; lia).
Qed.

(** X9: the clock that runs is the clock of the side to move.  If, in
    a snapshot, the active colour is the side to move while playing and
    is null otherwise, the same holds after every run of events. *)
Theorem hostRun_active_is_turn (env : HostEnv)
    (events : list (Z * Z * HostEvent)) (s : RoomSnapshot) :
  activeColor s = (if bool_decide (status s = playing) then Some (turn s) else None) ->
  let s' := hostRun env events s in
  activeColor s' = (if bool_decide (status s' = playing) then Some (turn s') else None).
Proof.
  revert s. induction events as [| [[now now'] event] rest IH];
    intros s Hinv; simpl; first done.
  apply IH.
  assert (Hadv : activeColor (advanceClock s now)
                 = (if bool_decide (status (advanceClock s now) = playing)
                    then Some (turn (advanceClock s now)) else None)).
  { unfold advanceClock. destruct s as [? ? st ? ? ? ? ? ? ? ? ? ? ac ?].
    simpl in *. destruct st; try done. destruct ac; try done.
    repeat case_match; simpl; done. }
  destruct event as [[]| | | | | | | |]; simpl; try done;
    unfold hostOnClose, onMove, onOfferDraw, onResign, hostApplyMove;
    repeat case_match; simpl in *; try done; congruence.
Qed.

(** X10: a resignation overrides a pending draw offer.  While playing,
    whoever offered a draw before, the guest's resign message ends the
    game for the host's side and the host's own resignation ends it for
    the guest's side, with reason Resign and no offer left. *)
Theorem resign_overrides_draw_offer (env : HostEnv) (now now' : Z)
    (offer : option Side) (s : RoomSnapshot) :
  status s = playing ->
  let pending := withDrawOffer offer s in
  let byGuest := hostStep env now now' (Data MsgResign) pending in
  let byHost := hostStep env now now' LocalResign pending in
  status byGuest = ended /\ status byHost = ended /\
  resultWinner byGuest = Some (sideToLabel (hostSide env)) /\
  resultWinner byHost = Some (sideToLabel (oppositeSide (hostSide env))) /\
  resultReason byGuest = "Resign"%string /\
  resultReason byHost = "Resign"%string /\
  drawOfferBy byGuest = None /\ drawOfferBy byHost = None /\
  activeColor byGuest = None /\ activeColor byHost = None.
Proof.
  intros Hplaying. simpl. unfold resignDisabled, onResign. simpl.
  rewrite Hplaying. by rewrite !bool_decide_eq_true_2.
Qed.

End RoomInvariants.

Lemma hostRun_clocks_nonneg_witness :
  0 <= w (FriendRoomScreen.clocks
            (@hostRun Sample.oracle Sample.host
               [(400000, 400000, FriendRoomScreen.Tick)] Sample.room)) /\
  0 <= b (FriendRoomScreen.clocks
            (@hostRun Sample.oracle Sample.host
               [(400000, 400000, FriendRoomScreen.Tick)] Sample.room)).
Proof.
  apply (@hostRun_clocks_nonneg Sample.oracle Sample.host
           [(400000, 400000, FriendRoomScreen.Tick)] Sample.room);
    simpl; lia.
Defined.

Lemma advanceClock_only_runs_down_witness :
  clock_get (FriendRoomScreen.clocks
               (FriendRoomScreen.advanceClock Sample.room 1000)) W
  <= 300000 /\
  clock_get (FriendRoomScreen.clocks
               (FriendRoomScreen.advanceClock Sample.room 1000)) B
  = 300000.
Proof.
  split.
  - apply (advanceClock_only_runs_down Sample.room 1000 W). simpl. lia.
  - apply (advanceClock_only_runs_down Sample.room 1000 B). discriminate.
Defined.

Lemma advanceClock_tick_granularity_witness :
  FriendRoomScreen.clocks
    (FriendRoomScreen.advanceClock
       (FriendRoomScreen.advanceClock Sample.room 350000) 400000)
  = FriendRoomScreen.clocks (FriendRoomScreen.advanceClock Sample.room 400000).
Proof.
  apply (advanceClock_tick_granularity Sample.room 350000 400000). lia.
Defined.

Lemma hostRun_active_is_turn_witness :
  let s' := @hostRun Sample.oracle Sample.host
              [(0, 0, FriendRoomScreen.LocalMove "e2e4")] Sample.room in
  FriendRoomScreen.activeColor s'
  = (if bool_decide (FriendRoomScreen.status s' = FriendRoomScreen.playing)
     then Some (FriendRoomScreen.turn s') else None).
Proof.
  apply (@hostRun_active_is_turn Sample.oracle Sample.host
           [(0, 0, FriendRoomScreen.LocalMove "e2e4")] Sample.room).
  reflexivity.
Defined.

Lemma resign_overrides_draw_offer_witness :
  FriendRoomScreen.resultReason
    (@FriendRoomScreen.hostStep Sample.oracle Sample.host 1000 1000
       (FriendRoomScreen.Data FriendRoomScreen.MsgResign)
       (FriendRoomScreen.withDrawOffer (Some W) Sample.room))
  = "Resign"%string.
Proof.
  apply (@resign_overrides_draw_offer Sample.oracle Sample.host 1000 1000
           (Some W) Sample.room).
  reflexivity.
Defined.

(** ** Host and guest *)

Section HostAndGuest.
Context `{ChessApi}.
Import FriendRoomScreen.

(** X11: the handshake.  When the host handles a join message and the
    guest handles the reply, the guest holds the host's snapshot and
    the side opposite to the host's; the game is playing with White to
    move and White's clock running, the host's name is on the host's
    side and the joining name on the other. *)
Theorem join_handshake (env : HostEnv) (name : string) (now now' : Z)
    (s : RoomSnapshot) (guest : GuestState) :
  let host' := hostOnData env now now' (MsgJoin name) s in
  let guest' := guestOnData (hostJoinReply env name now s) guest in
  view guest' = host' /\
  localSide guest' = oppositeSide (hostSide env) /\
  status host' = playing /\ turn host' = W /\ activeColor host' = Some W /\
  lastTickAt host' = now /\
  (match hostSide env with W => whiteName host' | B => blackName host' end)
  = hostName env /\
  (match hostSide env with W => blackName host' | B => whiteName host' end)
  = name.
Proof. simpl. by destruct (hostSide env). Qed.

(** X12: the guest's own display of its resignation matches what the
    host decides.  When the guest, holding the host's playing snapshot,
    resigns, it sends a resign message, and its local copy and the
    host's snapshot after that message agree on status, winner (the
    host's side), reason, active colour, position, history and clocks;
    the host's next snapshot then replaces the guest's copy. *)
Theorem guest_resign_matches_host (env : HostEnv) (now now' : Z)
    (guest : GuestState) :
  localSide guest = oppositeSide (hostSide env) ->
  status (view guest) = playing ->
  let host' := hostOnData env now now' MsgResign (view guest) in
  let guest' := (guestOnResign guest).2 in
  (guestOnResign guest).1 = Some MsgResign /\
  status (view guest') = ended /\ status host' = ended /\
  resultWinner (view guest') = Some (sideToLabel (hostSide env)) /\
  resultWinner host' = Some (sideToLabel (hostSide env)) /\
  resultReason (view guest') = resultReason host' /\
  activeColor (view guest') = activeColor host' /\
  fen (view guest') = fen host' /\ turn (view guest') = turn host' /\
  moves (view guest') = moves host' /\ clocks (view guest') = clocks host' /\
  view (guestOnData (MsgSnapshot host') guest') = host'.
Proof.
  intros Hside Hplaying. unfold guestOnResign. rewrite Hplaying. simpl.
  rewrite Hside. by destruct (hostSide env).
Qed.

(** X13: when the channel closes during play, each side ends its own
    copy with reason Opponent disconnected and names itself the winner:
    the host's snapshot has the host's side as winner, the guest's copy
    the guest's side, so the two results differ. *)
Theorem disconnect_each_side_wins (env : HostEnv) (guest : GuestState) :
  localSide guest = oppositeSide (hostSide env) ->
  status (view guest) = playing ->
  let host' := hostOnClose env (view guest) in
  let guest' := view (guestOnClose guest) in
  status host' = ended /\ status guest' = ended /\
  resultReason host' = "Opponent disconnected"%string /\
  resultReason guest' = "Opponent disconnected"%string /\
  resultWinner host' = Some (sideToLabel (hostSide env)) /\
  resultWinner guest' = Some (sideToLabel (oppositeSide (hostSide env))) /\
  resultWinner host' <> resultWinner guest'.
Proof.
  intros Hside Hplaying. unfold hostOnClose, guestOnClose.
  rewrite Hplaying, Hside. simpl. split_and!; try done.
  by destruct (hostSide env).
Qed.

(** X14: what the game shares between the local mode and the room is
    played the same way.  From a local game and a room that agree on
    all the fields they share, the updaters of [tryApplyMove] and of
    [hostApplyMove] reach states that agree again. *)
Theorem tryApplyMove_agrees (uci : string) (mover : Side) (now now' : Z)
    (st : AiGameScreen.LiveState) (s : RoomSnapshot) :
  agreeGame st s ->
  agreeGame (tryApplyMove uci mover now now' st).2
            (hostApplyMove uci mover now now' s).2.
Proof.
  destruct st as [? ? ast ? ? ? ? ? ? ? ? ?],
           s as [? ? rst ? ? ? ? ? ? ? ? ? ? rac ?].
  unfold agreeGame, agree; simpl.
  intros ((Hst & -> & -> & -> & -> & ->) & -> & -> & -> & -> & -> & ->).
  unfold tryApplyMove, hostApplyMove, AiGameScreen.advanceClock, advanceClock,
    resolveGameOutcome, getOutcomeFromChess; simpl.
  destruct ast, rst; try done.
  - destruct rac as [color|]; simpl.
    + destruct (_ <=? 0); simpl.
      * repeat case_match; simpl; done.
      * destruct (_ <=? 0); simpl; first done.
        repeat case_match; simpl; done.
    + repeat case_match; simpl; done.
Qed.

End HostAndGuest.

Lemma guest_resign_matches_host_witness :
  FriendRoomScreen.resultWinner (view (guestOnResign Sample2.guest).2)
  = Some white.
Proof.
  apply (@guest_resign_matches_host Sample.oracle Sample.host 1000 1000
           Sample2.guest); reflexivity.
Defined.

Lemma disconnect_each_side_wins_witness :
  FriendRoomScreen.resultWinner
    (FriendRoomScreen.hostOnClose Sample.host (view Sample2.guest))
  <> FriendRoomScreen.resultWinner (view (guestOnClose Sample2.guest)).
Proof.
  apply (disconnect_each_side_wins Sample.host Sample2.guest);
    reflexivity.
Defined.

Lemma tryApplyMove_agrees_witness :
  agreeGame
    (@tryApplyMove Sample.oracle "e2e4" W 0 0 Sample.liveGame).2
    (@FriendRoomScreen.hostApplyMove Sample.oracle "e2e4" W 0 0 Sample.room).2.
Proof.
  apply (@tryApplyMove_agrees Sample.oracle "e2e4" W 0 0 Sample.liveGame
           Sample.room).
  unfold agreeGame, agree; simpl; tauto.
Defined.

(** ** More of the game store *)

Section StoreMore.
Context `{Storage.JsonApi}.
Import Storage.

Lemma newerFirst_trans : Transitive newerFirst.
Proof. intros x y z. unfold newerFirst. lia. Qed.

Lemma loadGames_strongly_sorted store :
  StronglySorted newerFirst (loadGames store).
Proof.
  apply (@Sorted_StronglySorted _ newerFirst newerFirst_trans).
  apply loadGames_sorted.
Qed.

(** X15: [getGameById] finds a persisted game with the id asked for,
    and misses exactly when no persisted game has that id; after
    [clearGames] every lookup misses. *)
Theorem getGameById_spec (id : string) (store : Store) :
  (forall game, getGameById id store = Some game ->
     SavedGame.id game = id /\ game ∈ persistedGames store) /\
  (getGameById id store = None <->
   forall game, game ∈ persistedGames store -> SavedGame.id game <> id) /\
  getGameById id (clearGames store) = None.
Proof.
  unfold getGameById. split_and!; last done.
  - intros game Hfound. apply find_some in Hfound as [Hin Hid].
    apply String.eqb_eq in Hid. split; first done.
    rewrite <- (loadGames_persisted store). by apply list_elem_of_In.
  - split.
    + intros Hnone game Hin Hid.
      rewrite <- (loadGames_persisted store) in Hin.
      apply list_elem_of_In in Hin.
      pose proof (find_none _ _ Hnone game Hin) as Hne. simpl in Hne.
      apply String.eqb_neq in Hne. done.
    + intros Hall. destruct (find _ _) as [game|] eqn:Hfound; last done.
      apply find_some in Hfound as [Hin Hid]. apply String.eqb_eq in Hid.
      exfalso. apply (Hall game); last done.
      rewrite <- (loadGames_persisted store). by apply list_elem_of_In.
Qed.

(** X16: when the store is full, [saveGame] drops the oldest games.  The
    saved list is the new game followed by the first 199 of the loaded
    games, and no game that is dropped is newer than a game that is
    kept. *)
Theorem saveGame_drops_oldest (game : SavedGame.t) (store : Store) :
  (saveGame game store).2 = game :: take 199 (loadGames store) /\
  forall kept dropped,
    kept ∈ take 199 (loadGames store) ->
    dropped ∈ drop 199 (loadGames store) ->
    SavedGame.createdAt dropped <= SavedGame.createdAt kept.
Proof.
  split; first done.
  intros kept dropped Hkept Hdropped.
  pose proof (loadGames_strongly_sorted store) as Hsorted.
  rewrite <- (take_drop 199 (loadGames store)) in Hsorted.
  apply (StronglySorted_app_1_elem_of newerFirst _ _ kept dropped Hsorted);
    done.
Qed.

(** X17: a saved game can be looked up again.  If the codec reads back
    what [saveGame] wrote, a lookup by the saved game's id finds a game
    with that id, and it finds the saved game itself when no game
    loaded before had its id. *)
Theorem saveGame_then_getGameById (game : SavedGame.t) (store : Store) :
  let next := (saveGame game store).2 in
  JSON_parse (JSON_stringify next) = ParsedArray next ->
  JSON_stringify next <> ""%string ->
  (exists found,
     getGameById (SavedGame.id game) (saveGame game store).1 = Some found /\
     SavedGame.id found = SavedGame.id game) /\
  ((forall other, other ∈ loadGames store ->
      SavedGame.id other <> SavedGame.id game) ->
   getGameById (SavedGame.id game) (saveGame game store).1 = Some game).
Proof.
  intros next Hround Hnonempty.
  assert (Hload : loadGames (saveGame game store).1 = sortGames next).
  { change (saveGame game store).1 with (Some (JSON_stringify next)).
    unfold loadGames at 1.
    rewrite bool_decide_eq_false_2 by done. by rewrite Hround. }
  assert (Hnext : next = game :: take 199 (loadGames store)) by done.
  assert (Hgame : In game (sortGames next)).
  { apply list_elem_of_In. rewrite sortGames_perm, Hnext. left. }
  unfold getGameById. rewrite Hload.
  destruct (find _ (sortGames next)) as [found|] eqn:Hfound.
  - apply find_some in Hfound as [Hin Hid]. apply String.eqb_eq in Hid.
    split; first by exists found.
    intros Hfresh. f_equal.
    apply list_elem_of_In in Hin. rewrite sortGames_perm, Hnext in Hin.
    apply elem_of_cons in Hin as [-> | Hold]; first done.
    exfalso. apply (Hfresh found); last done.
    rewrite <- (take_drop 199 (loadGames store)). apply elem_of_app. by left.
  - pose proof (find_none _ _ Hfound game Hgame) as Hne. simpl in Hne.
    apply String.eqb_neq in Hne. done.
Qed.

End StoreMore.

Lemma saveGame_then_getGameById_witness :
  @getGameById Sample2.json "game_1"
    (@Storage.saveGame Sample2.json Sample2.game1 None).1
  = Some Sample2.game1.
Proof.
  apply (@saveGame_then_getGameById Sample2.json Sample2.game1 None);
    [reflexivity | discriminate |].
  intros other Hin. simpl in Hin. by apply elem_of_nil in Hin.
Defined.

Lemma getGameById_spec_witness :
  SavedGame.id Sample2.game1 = "game_1"%string.
Proof.
  apply (proj1 (@getGameById_spec Sample2.json "game_1"
                  (Some "[game_1]"%string)) Sample2.game1).
  reflexivity.
Defined.

(** ** The player's name *)

Section PlayerName.
Context `{StringApi}.

Lemma orElse_nonempty s d : d <> ""%string -> orElse s d <> ""%string.
Proof. intros Hd. unfold orElse. by case_bool_decide. Qed.

(** X18: the player's name is never empty.  Whatever is stored and
    whatever is typed, [loadPlayerName] returns a non-empty name and
    [savePlayerName] stores one. *)
Theorem playerName_never_empty (store : option string) (name : string) :
  loadPlayerName store <> ""%string /\
  exists stored, savePlayerName name = Some stored /\ stored <> ""%string.
Proof.
  split.
  - unfold loadPlayerName. destruct store as [value|]; last done.
    case_bool_decide; first done. by apply orElse_nonempty.
  - eexists. split; first done. by apply orElse_nonempty.
Qed.

(** X19: a saved name is loaded back unchanged.  With a [trim] that is
    idempotent and leaves the word Player alone, [loadPlayerName] after
    [savePlayerName] returns the trimmed name, or Player when nothing
    is left of the name. *)
Theorem playerName_roundtrip (name : string) :
  (forall s, trim (trim s) = trim s) ->
  trim "Player" = "Player"%string ->
  savePlayerName name = Some (orElse (trim name) "Player"%string) /\
  loadPlayerName (savePlayerName name) = orElse (trim name) "Player"%string.
Proof.
  intros Hidem Hplayer. split; first done.
  unfold savePlayerName, loadPlayerName.
  rewrite bool_decide_eq_false_2 by (by apply orElse_nonempty).
  destruct (decide (trim name = ""%string)) as [Hempty | Hleft].
  - assert (Hdefault : orElse (trim name) "Player" = "Player"%string)
      by (unfold orElse; by rewrite bool_decide_eq_true_2).
    rewrite Hdefault, Hplayer. done.
  - assert (Hkept : orElse (trim name) "Player" = trim name)
      by (unfold orElse; by rewrite bool_decide_eq_false_2).
    rewrite Hkept, Hidem. done.
Qed.

End PlayerName.

Lemma dropSpaces_idempotent s :
  Sample2.dropSpaces (Sample2.dropSpaces s) = Sample2.dropSpaces s.
Proof.
  induction s as [|c rest IH]; first done.
  simpl. destruct (Ascii.ascii_dec c " "%char) as [-> | Hne]; first done.
  destruct c as [[] [] [] [] [] [] [] []]; try done.
Qed.

Lemma playerName_roundtrip_witness :
  @loadPlayerName Sample2.strings (@savePlayerName Sample2.strings "  Ann")
  = "Ann"%string.
Proof.
  apply (@playerName_roundtrip Sample2.strings "  Ann");
    [exact dropSpaces_idempotent | reflexivity].
Defined.

(** ** Clock display, engine levels and move quality *)

Section Utilities.

(** X20: the clock display never shows less than zero and works in
    whole seconds.  Below one second, and for any negative time, it
    shows 00:00; in general it shows the minutes and the seconds below
    sixty of the time floored at zero and cut to whole seconds, each
    padded to two digits. *)
Theorem formatClock_spec (milliseconds : Z) :
  (milliseconds < 1000 -> formatClock milliseconds = "00:00"%string) /\
  exists minutes seconds,
    formatClock milliseconds
    = padStart2 (pretty minutes) +:+ ":" +:+ padStart2 (pretty seconds) /\
    0 <= minutes /\ 0 <= seconds < 60 /\
    (minutes * 60 + seconds) * 1000 <= Z.max 0 milliseconds
    < (minutes * 60 + seconds + 1) * 1000.
Proof.
  unfold formatClock. split.
  - intros Hsmall.
    rewrite (Z.div_small (Z.max 0 milliseconds) 1000) by lia. done.
  - exists (Z.max 0 milliseconds / 1000 / 60),
           ((Z.max 0 milliseconds / 1000) `mod` 60).
    split; first done.
    pose proof (Z.div_mod (Z.max 0 milliseconds) 1000 ltac:(lia)).
    pose proof (Z.mod_pos_bound (Z.max 0 milliseconds) 1000 ltac:(lia)).
    pose proof (Z.div_mod (Z.max 0 milliseconds / 1000) 60 ltac:(lia)).
    pose proof (Z.mod_pos_bound (Z.max 0 milliseconds / 1000) 60 ltac:(lia)).
    assert (0 <= Z.max 0 milliseconds / 1000) by (apply Z.div_pos; lia).
    assert (0 <= Z.max 0 milliseconds / 1000 / 60) by (apply Z.div_pos; lia).
    lia.
Qed.

Lemma clamp_cases (level : Z) :
  let clamped := Z.max 1 (Z.min 4 level) in
  clamped = 1 \/ clamped = 2 \/ clamped = 3 \/ clamped = 4.
Proof. simpl. lia. Qed.

(** X21: every whole level has a search depth and a think delay.  The
    level is clamped to 1..4, so the depth is between 6 and 15 and the
    delay between 180 and 760 ms, and a higher level never gives a
    smaller depth or a shorter delay. *)
Theorem aiLevel_tables (level higher : Z) :
  level <= higher ->
  exists depth delay depth' delay',
    aiLevelToDepth level = Some depth /\
    aiLevelToThinkDelayMs level = Some delay /\
    aiLevelToDepth higher = Some depth' /\
    aiLevelToThinkDelayMs higher = Some delay' /\
    6 <= depth <= depth' /\ depth' <= 15 /\
    180 <= delay <= delay' /\ delay' <= 760 /\
    depth = 3 * Z.max 1 (Z.min 4 level) + 3.
Proof.
  intros Hle. unfold aiLevelToDepth, aiLevelToThinkDelayMs.
  destruct (clamp_cases level) as [Hl | [Hl | [Hl | Hl]]];
    destruct (clamp_cases higher) as [Hh | [Hh | [Hh | Hh]]];
    simpl in Hl, Hh; rewrite Hl, Hh; simpl;
    try lia; do 4 eexists; split_and!; try reflexivity; lia.
Qed.

(** X22: the quality of a move is monotone in the loss.  A larger loss
    for the mover is never classified as a better move. *)
Theorem qualityFromLoss_monotone (loss larger : Z) :
  loss <= larger ->
  severity (qualityFromLoss loss) <= severity (qualityFromLoss larger).
Proof.
  intros Hle. unfold qualityFromLoss.
  repeat match goal with
         | |- context [?a <=? ?b] => destruct (Z.leb_spec a b)
         end; simpl; lia.
Qed.

(** X23: mirroring a board index flips the rank and keeps the file.
    On the 64 squares it stays on the board and is its own inverse. *)
Theorem mirrorSquareIndex_involutive (index : Z) :
  0 <= index < 64 ->
  0 <= mirrorSquareIndex index < 64 /\
  mirrorSquareIndex (mirrorSquareIndex index) = index /\
  Z.rem (mirrorSquareIndex index) 8 = Z.rem index 8 /\
  mirrorSquareIndex index / 8 = 7 - index / 8.
Proof.
  intros Hrange.
  assert (Hcases : exists rank file,
             index = rank * 8 + file /\ 0 <= rank < 8 /\ 0 <= file < 8).
  { exists (index / 8), (index `mod` 8).
    pose proof (Z.div_mod index 8 ltac:(lia)).
    pose proof (Z.mod_pos_bound index 8 ltac:(lia)).
    assert (0 <= index / 8) by (apply Z.div_pos; lia).
    assert (index / 8 < 8) by (apply Z.div_lt_upper_bound; lia).
    lia. }
  destruct Hcases as (rank & file & -> & Hrank & Hfile).
  assert (Hsplit : forall r f, 0 <= f < 8 ->
            (r * 8 + f) / 8 = r /\ (r * 8 + f) `mod` 8 = f).
  { intros r f Hf. split; symmetry;
      [apply (Z.div_unique _ 8 r f) | apply (Z.mod_unique _ 8 r f)]; lia. }
  destruct (Hsplit rank file Hfile) as [Hdiv Hmod].
  destruct (Hsplit (7 - rank) file Hfile) as [Hdiv' Hmod'].
  assert (Hmirror : mirrorSquareIndex (rank * 8 + file) = (7 - rank) * 8 + file).
  { unfold mirrorSquareIndex.
    rewrite Z.rem_mod_nonneg by lia. by rewrite Hdiv, Hmod. }
  rewrite Hmirror. split_and!; try lia.
  all: unfold mirrorSquareIndex; rewrite ?Z.rem_mod_nonneg by lia;
    rewrite ?Hdiv, ?Hdiv', ?Hmod, ?Hmod'; lia.
Qed.

(** X24: among lines that end in mate for the same side, the quicker
    mate sorts higher for the winner and the slower mate for the loser,
    whatever the centipawn values; without a mate the score is the
    centipawn value. *)
Theorem toSortScore_orders_mates (centipawns centipawns' mate mate' : Z) :
  (0 < mate < mate' \/ mate < mate' <= 0) ->
  toSortScore centipawns' (Some mate') < toSortScore centipawns (Some mate) /\
  toSortScore centipawns None = centipawns.
Proof.
  intros Hcases. unfold toSortScore.
  destruct (Z.ltb_spec 0 mate), (Z.ltb_spec 0 mate'); lia.
Qed.

End Utilities.

Lemma formatClock_spec_witness : formatClock (-250) = "00:00"%string.
Proof. apply (formatClock_spec (-250)). lia. Defined.

Lemma aiLevel_tables_witness :
  exists depth delay depth' delay',
    aiLevelToDepth 0 = Some depth /\
    aiLevelToThinkDelayMs 0 = Some delay /\
    aiLevelToDepth 9 = Some depth' /\
    aiLevelToThinkDelayMs 9 = Some delay' /\
    6 <= depth <= depth' /\ depth' <= 15 /\
    180 <= delay <= delay' /\ delay' <= 760 /\
    depth = 3 * Z.max 1 (Z.min 4 0) + 3.
Proof. apply (aiLevel_tables 0 9). lia. Defined.

Lemma qualityFromLoss_monotone_witness :
  severity (qualityFromLoss 20) <= severity (qualityFromLoss 21).
Proof. apply (qualityFromLoss_monotone 20 21). lia. Defined.

Lemma mirrorSquareIndex_involutive_witness :
  mirrorSquareIndex (mirrorSquareIndex 12) = 12.
Proof. apply (mirrorSquareIndex_involutive 12). lia. Defined.

Lemma toSortScore_orders_mates_witness :
  toSortScore 0 (Some 5) < toSortScore 0 (Some 2).
Proof. apply (toSortScore_orders_mates 0 0 2 5). lia. Defined.

(** ** Move notation and the move table *)

Section Notation.
Context `{ChessApi}.

Lemma get_beyond (s : string) (n : nat) :
  (String.length s <= n)%nat -> String.get n s = None.
Proof.
  revert n. induction s as [|c rest IH]; intros n Hlen; simpl in *.
  - by destruct n.
  - destruct n as [|n]; first lia. apply IH. lia.
Qed.

Lemma substring_0_0 (s : string) : String.substring 0 0 s = ""%string.
Proof. by destruct s. Qed.

Lemma applyUciMove_applyUci (game : Chess) (uci : string) :
  applyUciMove game uci = applyUci game uci.
Proof.
  unfold applyUciMove, applyUci.
  destruct (Nat.ltb_spec 4 (String.length uci)) as [Hlong | Hshort]; first done.
  unfold char_at. by rewrite get_beyond.
Qed.

(** X25: the recorded notation of a move reads back.  For a move whose
    two squares have two characters each, the string built by [toUci]
    (the same string [hostApplyMove] records) is split by
    [parseLastMoveSquares] into these two squares, and [applyUci] hands
    the oracle these squares with the first promotion character, or q
    when there is none; the analysis page's [applyUciMove] hands over
    the same on every string. *)
Theorem uci_roundtrip (game : Chess) (move : ChessMove) :
  String.length (mv_from move) = 2%nat ->
  String.length (mv_to move) = 2%nat ->
  parseLastMoveSquares (Some (toUci move)) = Some (mv_from move, mv_to move) /\
  applyUci game (toUci move)
  = chess_move game (mv_from move) (mv_to move)
      (nullish (char_at (nullish (mv_promotion move) ""%string) 0) "q"%string) /\
  (forall uci, applyUciMove game uci = applyUci game uci).
Proof.
  destruct move as [from to san promotion]; simpl.
  intros Hfrom Hto.
  destruct from as [|f1 [|f2 [|]]]; simpl in Hfrom; try discriminate.
  destruct to as [|t1 [|t2 [|]]]; simpl in Hto; try discriminate.
  split_and!; last apply applyUciMove_applyUci.
  - unfold parseLastMoveSquares, toUci; simpl.
    by rewrite substring_0_0.
  - unfold applyUci, toUci, char_at; simpl.
    by rewrite !substring_0_0.
Qed.

End Notation.

Lemma uci_roundtrip_witness :
  parseLastMoveSquares
    (Some (toUci {| mv_from := "e7"; mv_to := "e8"; mv_san := "e8=Q";
                    mv_promotion := Some "q"%string |}))
  = Some ("e7"%string, "e8"%string).
Proof.
  apply (@uci_roundtrip Sample.oracle "start"%string
           {| mv_from := "e7"; mv_to := "e8"; mv_san := "e8=Q";
              mv_promotion := Some "q"%string |}); reflexivity.
Defined.

Section MoveTable.

Lemma moveRowsLoop_flat (fuel index : nat) (moves : list MoveRecord.t) :
  (length moves <= index + 2 * fuel)%nat ->
  concat (rowMoves <$> moveRowsLoop fuel index moves) = drop index moves.
Proof.
  revert index. induction fuel as [|fuel IH]; intros index Hfuel; simpl.
  - rewrite drop_ge by lia. done.
  - destruct (Nat.ltb_spec index (length moves)) as [Hin | Hout]; simpl.
    + rewrite IH by lia. unfold rowMoves; simpl.
      destruct (lookup_lt_is_Some_2 moves index Hin) as [white Hwhite].
      rewrite Hwhite. simpl. rewrite (drop_S _ _ _ Hwhite). f_equal.
      destruct (moves !! (index + 1)%nat) as [black|] eqn:Hblack; simpl.
      * replace (index + 1)%nat with (S index) in Hblack by lia.
        rewrite (drop_S _ _ _ Hblack).
        by replace (index + 2)%nat with (S (S index)) by lia.
      * apply lookup_ge_None_1 in Hblack.
        rewrite !drop_ge by lia. done.
    + rewrite drop_ge by lia. done.
Qed.

Lemma moveRowsLoop_length (fuel index : nat) (moves : list MoveRecord.t) :
  (length moves <= index + 2 * fuel)%nat ->
  length (moveRowsLoop fuel index moves)
  = ((length moves - index + 1) / 2)%nat.
Proof.
  revert index. induction fuel as [|fuel IH]; intros index Hfuel;
    cbn [moveRowsLoop].
  - replace (length moves - index + 1)%nat with 1%nat by lia. done.
  - destruct (Nat.ltb_spec index (length moves)) as [Hin | Hout];
      cbn [length].
    + rewrite IH by lia.
      destruct (decide (length moves = index + 1)%nat) as [Hlast | Hmore].
      * replace (length moves - (index + 2) + 1)%nat with 1%nat by lia.
        by replace (length moves - index + 1)%nat with 2%nat by lia.
      * replace (length moves - index + 1)%nat
          with (length moves - (index + 2) + 1 + 2)%nat by lia.
        pose proof (Nat.div_add (length moves - (index + 2) + 1) 1 2
                      ltac:(lia)) as Hdiv.
        change (1 * 2)%nat with 2%nat in Hdiv. rewrite Hdiv. lia.
    + replace (length moves - index + 1)%nat with 1%nat by lia. done.
Qed.

Lemma moveRowsLoop_lookup (fuel index i : nat) (moves : list MoveRecord.t)
    (row : MoveRow) :
  moveRowsLoop fuel index moves !! i = Some row ->
  row = {| moveNumber := Z.of_nat (index + 2 * i) / 2 + 1;
           rowWhite := moves !! (index + 2 * i)%nat;
           rowBlack := moves !! (index + 2 * i + 1)%nat |} /\
  (index + 2 * i < length moves)%nat.
Proof.
  revert index i. induction fuel as [|fuel IH]; intros index i; simpl;
    first done.
  destruct (Nat.ltb_spec index (length moves)) as [Hin | Hout]; last done.
  destruct i as [|i]; simpl.
  - intros [= <-]. rewrite !Nat.add_0_r. done.
  - intros Hrow. apply IH in Hrow as [-> Hlt].
    replace (index + 2 + 2 * i)%nat with (index + 2 * S i)%nat by lia.
    split; [done | lia].
Qed.

(** X26: the move table shows every move once, in order.  Reading the
    rows of [moveRows] from left to right gives back the move list;
    there is one row per two moves, rounded up; row [i] carries move
    number [i + 1], always has White's move [2i], and has Black's move
    [2i + 1] when there is one. *)
Theorem moveRows_spec (moves : list MoveRecord.t) :
  concat (rowMoves <$> moveRows moves) = moves /\
  length (moveRows moves) = ((length moves + 1) / 2)%nat /\
  forall (i : nat) (row : MoveRow),
    moveRows moves !! i = Some row ->
    moveNumber row = Z.of_nat i + 1 /\
    rowWhite row = moves !! (2 * i)%nat /\
    is_Some (rowWhite row) /\
    rowBlack row = moves !! (2 * i + 1)%nat.
Proof.
  unfold moveRows. split_and!.
  - rewrite moveRowsLoop_flat by lia. done.
  - rewrite moveRowsLoop_length by lia. by rewrite Nat.sub_0_r.
  - intros i row Hrow. apply moveRowsLoop_lookup in Hrow as [-> Hlt].
    simpl in *. split_and!; try done.
    + f_equal. symmetry. apply (Z.div_unique _ 2 _ 0); lia.
    + by apply lookup_lt_is_Some_2.
Qed.

End MoveTable.

Lemma moveRows_spec_witness :
  exists row, moveRows [Sample2.e2e4] !! 0%nat = Some row /\
              moveNumber row = 1 /\ rowBlack row = None.
Proof.
  eexists. split; first reflexivity.
  split.
  - apply (proj2 (proj2 (moveRows_spec [Sample2.e2e4])) 0%nat). reflexivity.
  - reflexivity.
Defined.

Lemma saveGame_drops_oldest_witness :
  SavedGame.createdAt (Sample2.gameAt 0)
  <= SavedGame.createdAt (Sample2.gameAt 200).
Proof.
  apply (proj2 (@saveGame_drops_oldest Sample2.fullJson Sample2.game1
                  (Some "[...]"%string))
           (Sample2.gameAt 200) (Sample2.gameAt 0)).
  - apply list_elem_of_In. vm_compute. left. reflexivity.
  - apply list_elem_of_In. vm_compute. right. left. reflexivity.
Defined.

(** ** After the end *)

Section AfterTheEnd.
Context `{ChessApi}.
Import FriendRoomScreen.

(** X27: moves, ticks, a closing channel, chat and the host's own
    offer-draw and resign buttons do nothing to a finished game.  A run
    made of such events only leaves an ended snapshot exactly as it
    was. *)
Theorem hostRun_ended_guarded (env : HostEnv)
    (events : list (Z * Z * HostEvent)) (s : RoomSnapshot) :
  status s = ended ->
  Forall (fun timed => statusGuarded timed.2 = true) events ->
  hostRun env events s = s.
Proof.
  intros Hended Hguarded.
  induction Hguarded as [| [[now now'] event] rest Hevent _ IH]; simpl;
    first done.
  by rewrite hostStep_ended_guarded.
Qed.

End AfterTheEnd.

Lemma hostRun_ended_guarded_witness :
  @hostRun Sample.oracle Sample.host
    [(1000, 1000, FriendRoomScreen.Data (FriendRoomScreen.MsgMove "e2e4"));
     (1250, 1250, FriendRoomScreen.Tick);
     (1300, 1300, FriendRoomScreen.LocalResign)]
    Sample.finishedRoom
  = Sample.finishedRoom.
Proof.
  apply (@hostRun_ended_guarded Sample.oracle Sample.host
           [(1000, 1000, FriendRoomScreen.Data (FriendRoomScreen.MsgMove "e2e4"));
            (1250, 1250, FriendRoomScreen.Tick);
            (1300, 1300, FriendRoomScreen.LocalResign)]
           Sample.finishedRoom); first reflexivity.
  repeat constructor.
Defined.
